(** * SB_Servo: the SailBot servo wrapper over the Pololu Mini Maestro

    A shallow embedding of [SB_Servo.cpp] / [SB_Servo.hpp].  The C++ [int] is
    the 32-bit two's complement integer of the Teensy, carried as a [Z] with
    its wrap-around written out; [float] is IEEE-754 binary32 and [double]
    binary64, both through the parametric [SpecFloat] operations of the
    Standard Library (round to nearest, ties to even, one rounding per
    operation).  The static [MiniMaestro] and [servoCount] members and the
    debug [Serial] port form the [World] every method threads through. *)

From Stdlib Require Import ZArith List String Bool Lia.
From Stdlib Require Import Floats.SpecFloat.
Import ListNotations.
Local Open Scope string_scope.
Local Open Scope list_scope.
Local Open Scope Z_scope.

(** ** Machine integers *)

Module CInt.

(** [int]: 32 bits, two's complement. *)
Definition INT_MIN : Z := - 2 ^ 31.
Definition INT_MAX : Z := 2 ^ 31 - 1.

Definition wrap (z : Z) : Z := (z + 2 ^ 31) mod 2 ^ 32 - 2 ^ 31.

Definition in_range (z : Z) : Prop := INT_MIN <= z <= INT_MAX.

Definition add (a b : Z) : Z := wrap (a + b).
Definition sub (a b : Z) : Z := wrap (a - b).
Definition mul (a b : Z) : Z := wrap (a * b).

(** [uint16_t], the element type of the Maestro target array. *)
Definition to_uint16 (z : Z) : Z := z mod 2 ^ 16.

(** [size_t] on the 32-bit target, as used by [std::vector::size]. *)
Definition to_size_t (z : Z) : Z := z mod 2 ^ 32.

End CInt.

(** ** Floating point *)

Module FP.

Definition float : Type := spec_float.
Definition double : Type := spec_float.

Definition prec32 : Z := 24.
Definition emax32 : Z := 128.
Definition prec64 : Z := 53.
Definition emax64 : Z := 1024.

Definition add : float -> float -> float := SFadd prec32 emax32.
Definition sub : float -> float -> float := SFsub prec32 emax32.
Definition mul : float -> float -> float := SFmul prec32 emax32.
Definition div : float -> float -> float := SFdiv prec32 emax32.

(** [a < b], [a <= b], [a > b] as C++ evaluates them: false as soon as an
    operand is a NaN. *)
Definition ltb (a b : float) : bool := SFltb a b.
Definition leb (a b : float) : bool := SFleb a b.
Definition gtb (a b : float) : bool := SFltb b a.

(** Conversion [int -> float], rounding to nearest even. *)
Definition of_int (z : Z) : float := binary_normalize prec32 emax32 z 0 false.

(** Widening [float -> double] is exact. *)
Definition to_double (f : float) : double :=
  match f with
  | S754_finite s m e => binary_round prec64 emax64 s m e
  | _ => f
  end.

Definition dadd : double -> double -> double := SFadd prec64 emax64.

(** The literal [.5], a [double]. *)
Definition dhalf : double := binary_normalize prec64 emax64 1 (-1) false.

(** Integer part of a finite value, rounding toward zero. *)
Definition trunc (f : spec_float) : option Z :=
  match f with
  | S754_zero _ => Some 0
  | S754_finite s m e => Some (cond_Zopp s (Z.shiftl (Zpos m) e))
  | _ => None
  end.

(** Conversion to [int].  Inside the [int] range this is the truncation
    C++ prescribes.  Outside it (and on NaN and the infinities) the
    language leaves the result open; the Teensy, in hardware ([vcvt]) as
    in the software float library, saturates and maps NaN to 0, which is
    what is written here. *)
Definition to_int (f : spec_float) : Z :=
  match f with
  | S754_nan => 0
  | S754_infinity s => if s then CInt.INT_MIN else CInt.INT_MAX
  | _ =>
      match trunc f with
      | Some z => Z.max CInt.INT_MIN (Z.min CInt.INT_MAX z)
      | None => 0
      end
  end.

End FP.

(** ** The header: error bits, defaults, channel count *)

Definition US_ERROR_BIT : Z := 0x01.
Definition RANGE_ERROR_BIT : Z := 0x02.
Definition ANGLE_ERROR_BIT : Z := 0x04.
Definition CHANNEL_ERROR_BIT : Z := 0x08.
Definition ROTATE_TO_UNDER_ERROR_BIT : Z := 0x10.
Definition ROTATE_TO_OVER_ERROR_BIT : Z := 0x20.

Definition DEFAULT_MIN_US : Z := 500.
Definition DEFAULT_MAX_US : Z := 2500.
Definition DEFAULT_MIN_ANGLE : Z := 0.
Definition DEFAULT_MAX_ANGLE : Z := 180.

Definition NUM_MAESTRO_CHANNELS : Z := 8.

(** ** Data model *)

(** The non-static members of [class SB_Servo]. *)
Record SB_Servo : Type := mkServo {
  errorCode : Z;
  minUS : Z;
  maxUS : Z;
  minDegreeRange : FP.float;
  maxDegreeRange : FP.float;
  minAngle : FP.float;
  maxAngle : FP.float;
  channelNum : Z;
  servoNumber : Z
}.

(** What leaves the program: the three Maestro operations the class calls
    and the lines [printDebug] sends to [Serial] ([DEBUG] is defined in the
    header).  Arguments are recorded as the class passes them. *)
Inductive Event : Type :=
| SetTarget (channel target : Z)
| GetPosition (channel : Z)
| SetMultiTarget (count firstChannel : Z) (targets : list (option Z))
| DebugLine (servo : Z) (msg : string).

(** The static members and the outside: [servoCount], the position the
    Maestro reports for a channel ([uint16_t]), and the events so far in
    the order they happened. *)
Record World : Type := mkWorld {
  servoCount : Z;
  position : Z -> Z;
  trace : list Event
}.

Definition emit (e : Event) (w : World) : World :=
  mkWorld (servoCount w) (position w) (trace w ++ [e]).

Definition is_gateway (e : Event) : bool :=
  match e with
  | DebugLine _ _ => false
  | _ => true
  end.

Definition is_setTarget (e : Event) : bool :=
  match e with
  | SetTarget _ _ => true
  | _ => false
  end.

(** The Maestro calls among some events. *)
Definition gateway_calls (evs : list Event) : list Event := filter is_gateway evs.

(** The events between two worlds. *)
Definition since (w w' : World) : list Event :=
  skipn (List.length (trace w)) (trace w').

(** [has_bit mask b]: the (single-bit) flag [b] is set in [mask]. *)
Definition has_bit (mask b : Z) : Prop := Z.land mask b = b.

(** [bits_kept before after]: no bit of [before] is missing from [after]. *)
Definition bits_kept (before after : Z) : Prop := Z.land before after = before.

Definition set_errorCode (s : SB_Servo) (e : Z) : SB_Servo :=
  mkServo e (minUS s) (maxUS s) (minDegreeRange s) (maxDegreeRange s)
          (minAngle s) (maxAngle s) (channelNum s) (servoNumber s).

(** [errorCode |= bit] *)
Definition raise (bit : Z) (s : SB_Servo) : SB_Servo :=
  set_errorCode s (Z.lor (errorCode s) bit).

(** ** Unit conversion *)

(** [degToUS]: [((float) (maxUS - minUS) / maxDegreeRange) * degree + minUS],
    converted to the [int] return type. *)
Definition degToUS (s : SB_Servo) (degree : FP.float) : Z :=
  FP.to_int
    (FP.add
       (FP.mul (FP.div (FP.of_int (CInt.sub (maxUS s) (minUS s))) (maxDegreeRange s))
               degree)
       (FP.of_int (minUS s))).

(** [usToDegrees]:
    [(maxDegreeRange / ((float) maxUS - minUS)) * (us - minUS) + minDegreeRange];
    the cast binds to [maxUS] alone, so the first difference is a float one
    and the second an [int] one. *)
Definition usToDegrees (s : SB_Servo) (us : Z) : FP.float :=
  FP.add
    (FP.mul (FP.div (maxDegreeRange s)
                    (FP.sub (FP.of_int (maxUS s)) (FP.of_int (minUS s))))
            (FP.of_int (CInt.sub us (minUS s))))
    (minDegreeRange s).

(** ** Methods: a servo and the world in, a servo and the world out *)

Definition Machine : Type := (SB_Servo * World)%type.

Definition printDebug (s : SB_Servo) (printMe : string) (w : World) : World :=
  emit (DebugLine (servoNumber s) printMe) w.

(** The shape shared by the seven checks: when the test fires, or the bit
    in and print the line. *)
Definition check (test : SB_Servo -> bool) (bit : Z) (msg : string) (m : Machine) : Machine :=
  let (s, w) := m in
  if test s then (raise bit s, printDebug s msg w) else (s, w).

Definition checkMinUS : Machine -> Machine :=
  check (fun s => (minUS s <? 0) || (minUS s >? maxUS s))
        US_ERROR_BIT "checkMinUS() error".

Definition checkMaxUS : Machine -> Machine :=
  check (fun s => (maxUS s <? 0) || (maxUS s <=? minUS s))
        US_ERROR_BIT "checkMaxMS() error".

Definition checkMinDegreeRange : Machine -> Machine :=
  check (fun s => FP.ltb (minDegreeRange s) (FP.of_int 0)
                  || FP.gtb (minDegreeRange s) (maxDegreeRange s))
        RANGE_ERROR_BIT "checkMinDegreeRange() error".

Definition checkMaxDegreeRange : Machine -> Machine :=
  check (fun s => FP.gtb (maxDegreeRange s) (FP.of_int 360)
                  || FP.ltb (maxDegreeRange s) (minDegreeRange s))
        RANGE_ERROR_BIT "checkMaxDegreeRange() error".

Definition checkMinAngle : Machine -> Machine :=
  check (fun s => FP.ltb (minAngle s) (FP.of_int 0)
                  || FP.gtb (minAngle s) (maxAngle s)
                  || FP.ltb (minAngle s) (minDegreeRange s))
        ANGLE_ERROR_BIT "checkMinAngle() error".

Definition checkMaxAngle : Machine -> Machine :=
  check (fun s => FP.ltb (maxAngle s) (FP.of_int 0)
                  || FP.ltb (maxAngle s) (minAngle s)
                  || FP.gtb (maxAngle s) (maxDegreeRange s))
        ANGLE_ERROR_BIT "checkMaxAngle() error".

Definition checkChannel : Machine -> Machine :=
  check (fun s => (channelNum s <? 0) || (channelNum s >=? NUM_MAESTRO_CHANNELS))
        CHANNEL_ERROR_BIT "checkChannel() error".

Declare Scope machine_scope.
Notation "m |> f" := (f m) (at level 45, left associativity, only parsing) : machine_scope.
Local Open Scope machine_scope.

(** The seven-argument constructor: the member initialisers (pulse bounds
    times 4, [servoNumber(servoCount++)], [errorCode = 0] from the class
    body), then the seven checks in order. *)
Definition new_SB_Servo
    (minimumUS maximumUS : Z) (minimumRange maximumRange minimumAngle maximumAngle : FP.float)
    (channel : Z) (w : World) : Machine :=
  let s := mkServo 0 (CInt.mul 4 minimumUS) (CInt.mul 4 maximumUS)
                   minimumRange maximumRange minimumAngle maximumAngle
                   channel (servoCount w) in
  let w' := mkWorld (CInt.add (servoCount w) 1) (position w) (trace w) in
  (s, w') |> checkMinUS |> checkMaxUS
          |> checkMinDegreeRange |> checkMaxDegreeRange
          |> checkMinAngle |> checkMaxAngle
          |> checkChannel.

(** [SB_Servo(int minUS, int maxUS, int channel)] as the source file defines
    it. *)
Definition new_SB_Servo3 (minUS maxUS channel : Z) (w : World) : Machine :=
  new_SB_Servo minUS maxUS
               (FP.of_int DEFAULT_MIN_ANGLE) (FP.of_int DEFAULT_MAX_ANGLE)
               (FP.of_int DEFAULT_MIN_ANGLE) (FP.of_int DEFAULT_MAX_ANGLE)
               channel w.

(** [SB_Servo(int channel)] *)
Definition new_SB_Servo1 (channel : Z) (w : World) : Machine :=
  new_SB_Servo3 DEFAULT_MIN_US DEFAULT_MAX_US channel w.

(** [getCurrentDegrees]: the mask is tested, the channel is not checked
    again. *)
Definition getCurrentDegrees (m : Machine) : FP.float * Machine :=
  let (s, w) := m in
  if negb (Z.land (errorCode s) CHANNEL_ERROR_BIT =? 0) then
    (FP.of_int (-1), (s, printDebug s "Bad channel num, aborting getCurrentDegrees()" w))
  else
    let currentUS := CInt.to_uint16 (position w (channelNum s)) in
    (usToDegrees s currentUS, (s, emit (GetPosition (channelNum s)) w)).

(** The clamp at the head of [rotateToDegrees]. *)
Definition clamp (degree : FP.float) (m : Machine) : FP.float * Machine :=
  let (s, w) := m in
  if FP.gtb degree (maxAngle s) then
    (maxAngle s,
     (raise ROTATE_TO_OVER_ERROR_BIT s,
      printDebug s "Requested RotateTo() angle exceeds rating warning" w))
  else if FP.ltb degree (minAngle s) then
    (minAngle s,
     (raise ROTATE_TO_UNDER_ERROR_BIT s,
      printDebug s "Requested RotateTo() angle under rating warning" w))
  else (degree, (s, w)).

Definition rotateToDegrees (degree : FP.float) (m : Machine) : Machine :=
  let (degree', m1) := clamp degree m in
  let usToWrite := degToUS (fst m1) degree' in
  let (s, w) := checkChannel m1 in
  if negb (Z.land (errorCode s) CHANNEL_ERROR_BIT =? 0) then
    (s, printDebug s "Bad channel num, aborting rotateTo()" w)
  else
    (s, emit (SetTarget (channelNum s) usToWrite) w).

(** [rotateBy].  [currentDeg] is not declared in the header; it receives an
    [(int)] cast, so it is taken to be an [int].  The sum with [.5] is a
    [double] one, the sum with [degreesBy] a [float] one. *)
Definition rotateBy (degreesBy : FP.float) (m : Machine) : Machine :=
  let (cur, m1) := getCurrentDegrees m in
  let currentDeg := FP.to_int (FP.dadd (FP.to_double cur) FP.dhalf) in
  let desiredAngle := FP.add (FP.of_int currentDeg) degreesBy in
  rotateToDegrees desiredAngle m1.

Definition getErrorCode (m : Machine) : Z * Machine := (errorCode (fst m), m).

Definition clearErrorCode (m : Machine) : Machine :=
  let (s, w) := m in (set_errorCode s 0, w).

(** [rotateToDegrees] reaches the Maestro only when this is false: the
    channel bit is already in the mask, or [checkChannel] is about to put it
    there. *)
Definition channel_blocked (s : SB_Servo) : bool :=
  negb (Z.land (errorCode s) CHANNEL_ERROR_BIT =? 0)
  || (channelNum s <? 0) || (channelNum s >=? NUM_MAESTRO_CHANNELS).

(** The calibration invariants of the data model, on constructor arguments. *)
Definition range_invariant (rangeMin rangeMax : FP.float) : Prop :=
  FP.leb (FP.of_int 0) rangeMin = true /\
  FP.leb rangeMin rangeMax = true /\
  FP.leb rangeMax (FP.of_int 360) = true.

Definition angle_invariant (rangeMin rangeMax angleMin angleMax : FP.float) : Prop :=
  FP.leb rangeMin angleMin = true /\
  FP.leb angleMin angleMax = true /\
  FP.leb angleMax rangeMax = true.

Definition channel_invariant (channel : Z) : Prop :=
  0 <= channel < NUM_MAESTRO_CHANNELS.

(** A unit whose safe-angle window is upside down (100 above 50); the
    constructor flags it and hands it out like any other. *)
Definition inverted_window : Machine :=
  new_SB_Servo 500 2500 (FP.of_int 0) (FP.of_int 180) (FP.of_int 100) (FP.of_int 50)
               0 (mkWorld 0 (fun _ => 6000) []).

(** A unit built on channel 9, which the Maestro does not have. *)
Definition off_board : Machine :=
  new_SB_Servo 500 2500 (FP.of_int 0) (FP.of_int 180) (FP.of_int 0) (FP.of_int 180)
               9 (mkWorld 0 (fun _ => 6000) []).

(** A unit whose rated range starts at 10 degrees; every invariant of the
    data model holds. *)
Definition offset_range : Machine :=
  new_SB_Servo 500 2500 (FP.of_int 10) (FP.of_int 180) (FP.of_int 10) (FP.of_int 180)
               0 (mkWorld 0 (fun _ => 6000) []).

(** The seven checks of the constructor, by name. *)
Definition construction_checks : list (Machine -> Machine) :=
  [checkMinUS; checkMaxUS; checkMinDegreeRange; checkMaxDegreeRange;
   checkMinAngle; checkMaxAngle; checkChannel].

(** The mask a run of checks leaves, from the outcome of each test and the
    bit it guards, starting from the initial 0. *)
Definition mask_of (checks : list (bool * Z)) : Z :=
  fold_left (fun (e : Z) (c : bool * Z) => if fst c then Z.lor e (snd c) else e) checks 0.

(** ** Fleet dispatch *)

(** How a run of [setMultipleTargets] ends: normally, by touching an index
    outside its vector or array, or with the step budget of the loops
    below used up (which [setMultipleTargets_budget] excludes). *)
Inductive outcome (A : Type) : Type :=
| Done (a : A)
| Fault
| Timeout.
Arguments Done {A} a.
Arguments Fault {A}.
Arguments Timeout {A}.

(** [v.size()] and the unchecked [v[i]] of [std::vector]; the index is a
    [size_t]. *)
Definition size {A : Type} (v : list A) : Z := Z.of_nat (List.length v).

Definition at_index {A : Type} (v : list A) (i : Z) : option A :=
  if i <? 0 then None else nth_error v (Z.to_nat i).

Fixpoint list_set {A : Type} (l : list A) (n : nat) (x : A) : list A :=
  match l, n with
  | [], _ => []
  | _ :: t, O => x :: t
  | h :: t, S n' => h :: list_set t n' x
  end.

(** [a[i] = x] on a built-in array, indexed by an [int]. *)
Definition array_set {A : Type} (a : list A) (i : Z) (x : A) : option (list A) :=
  if (0 <=? i) && (i <? size a) then Some (list_set a (Z.to_nat i) x) else None.

Definition continuity_msg : string := "Continuity is wrong in setMultipleTargets!!!".

(** [for (int i = 0; i < servos.size() - 1; i++)]: the bound is a [size_t]
    difference and [i] is compared, and used as an index, as a [size_t]. *)
Fixpoint contiguity_scan (fuel : nat) (servos : list SB_Servo) (i : Z) (w : World)
  : outcome World :=
  match fuel with
  | O => Timeout
  | S fuel' =>
      if CInt.to_size_t i <? CInt.to_size_t (size servos - 1) then
        match at_index servos (CInt.to_size_t i),
              at_index servos (CInt.to_size_t (CInt.add i 1)) with
        | Some a, Some b =>
            let w' := if negb (CInt.add (channelNum a) 1 =? channelNum b)
                      then printDebug a continuity_msg w else w in
            contiguity_scan fuel' servos (CInt.add i 1) w'
        | _, _ => Fault
        end
      else Done w
  end.

(** [for (int i = 0; i < degrees.size(); i++) targets[i] = servos[i].degToUS(degrees[i]);]
    An entry of [targets] is [None] until it is written. *)
Fixpoint fill_targets (fuel : nat) (servos : list SB_Servo) (degrees : list FP.float)
    (i : Z) (targets : list (option Z)) : outcome (list (option Z)) :=
  match fuel with
  | O => Timeout
  | S fuel' =>
      if CInt.to_size_t i <? size degrees then
        match at_index servos (CInt.to_size_t i),
              at_index degrees (CInt.to_size_t i) with
        | Some sv, Some d =>
            match array_set targets i (Some (CInt.to_uint16 (degToUS sv d))) with
            | Some targets' => fill_targets fuel' servos degrees (CInt.add i 1) targets'
            | None => Fault
            end
        | _, _ => Fault
        end
      else Done targets
  end.

Definition fresh_targets : list (option Z) :=
  repeat None (Z.to_nat NUM_MAESTRO_CHANNELS).

Definition setMultipleTargets (servos : list SB_Servo) (degrees : list FP.float)
    (w : World) : outcome World :=
  match contiguity_scan (S (List.length servos)) servos 0 w with
  | Done w1 =>
      match fill_targets (S (List.length degrees)) servos degrees 0 fresh_targets with
      | Done targets =>
          let numberOfServosToMove := CInt.wrap (size servos) in
          match at_index servos 0 with
          | Some first =>
              Done (emit (SetMultiTarget numberOfServosToMove (channelNum first) targets) w1)
          | None => Fault
          end
      | Fault => Fault
      | Timeout => Timeout
      end
  | Fault => Fault
  | Timeout => Timeout
  end.

(** The precondition under which every index of [setMultipleTargets]
    stays inside its vector or array. *)
Definition in_bounds (servos : list SB_Servo) (degrees : list FP.float) : bool :=
  (1 <=? size servos) && (size degrees <=? size servos)
  && (size degrees <=? NUM_MAESTRO_CHANNELS).

(** One default unit per channel, constructed in order in the same world. *)
Fixpoint fleet (channels : list Z) (w : World) : list SB_Servo * World :=
  match channels with
  | [] => ([], w)
  | c :: cs =>
      let (s, w1) := new_SB_Servo1 c w in
      let (ss, w2) := fleet cs w1 in
      (s :: ss, w2)
  end.

(** ** Sample values *)

(** A world in which nothing has happened yet and every channel reports
    [p]. *)
Definition quiet (p : Z) : World := mkWorld 0 (fun _ => p) [].

(** The HS-422 of the header comments: 500..2500 us, 0..180 degrees. *)
Definition hs422 (channel : Z) : Machine :=
  new_SB_Servo 500 2500 (FP.of_int 0) (FP.of_int 180) (FP.of_int 0) (FP.of_int 180)
               channel (quiet 6000).

(** Three default units on the channels 2, 4 and 5, and nine on channels
    that skip 1; both batches break contiguity at their first unit. *)
Definition trio : list SB_Servo * World := fleet [2; 4; 5] (quiet 6000).

Definition nonet : list SB_Servo * World := fleet [0; 2; 3; 4; 5; 6; 7; 0; 1] (quiet 6000).

(** ** Vocabulary for the properties beyond the claims *)

Definition is_nan (f : FP.float) : bool :=
  match f with
  | S754_nan => true
  | _ => false
  end.

(** The six bits the header defines, together. *)
Definition KNOWN_BITS : Z := 0x3F.

Definition mask_ok (e : Z) : Prop := Z.land e KNOWN_BITS = e.

(** [extends w w' evs]: [w'] is [w] after the events [evs], the static
    members untouched. *)
Definition extends (w w' : World) (evs : list Event) : Prop :=
  servoCount w' = servoCount w /\ position w' = position w /\
  trace w' = trace w ++ evs.

(** The events a unit may cause through its own methods: a [setTarget] on
    its own channel, that channel being on the board; a [getPosition] on its
    own channel; a debug line under its own number. *)
Definition own_event (s : SB_Servo) (e : Event) : Prop :=
  match e with
  | SetTarget c _ => c = channelNum s /\ 0 <= c < NUM_MAESTRO_CHANNELS
  | GetPosition c => c = channelNum s
  | SetMultiTarget _ _ _ => False
  | DebugLine n _ => n = servoNumber s
  end.

Definition debug_of (n : Z) (e : Event) : Prop :=
  match e with
  | DebugLine k _ => k = n
  | _ => False
  end.

(** The public instance methods, as calls a program can make in any
    order. *)
Inductive Call : Type :=
| CallRotateToDegrees (degree : FP.float)
| CallRotateBy (degreesBy : FP.float)
| CallGetCurrentDegrees
| CallGetErrorCode
| CallClearErrorCode.

Definition call (c : Call) (m : Machine) : Machine :=
  match c with
  | CallRotateToDegrees degree => rotateToDegrees degree m
  | CallRotateBy degreesBy => rotateBy degreesBy m
  | CallGetCurrentDegrees => snd (getCurrentDegrees m)
  | CallGetErrorCode => snd (getErrorCode m)
  | CallClearErrorCode => clearErrorCode m
  end.

Definition calls (cs : list Call) (m : Machine) : Machine :=
  fold_left (fun m c => call c m) cs m.

(** What the contiguity scan prints, by recursion on the vector: one line
    for each unit whose successor is not on the next channel. *)
Fixpoint breaks (servos : list SB_Servo) : list Event :=
  match servos with
  | a :: (b :: _) as rest =>
      (if negb (CInt.add (channelNum a) 1 =? channelNum b)
       then [DebugLine (servoNumber a) continuity_msg] else [])
      ++ breaks rest
  | _ => []
  end.

(** What the fill loop leaves in [targets]: one pulse per angle, each
    through the unit of the same index, then the entries never written. *)
Definition expected_targets (servos : list SB_Servo) (degrees : list FP.float)
  : list (option Z) :=
  map (fun sd => Some (CInt.to_uint16 (degToUS (fst sd) (snd sd)))) (combine servos degrees)
  ++ repeat None (Z.to_nat NUM_MAESTRO_CHANNELS - List.length degrees).

(** Every unit but the last is followed by the unit of the next channel,
    by the source's own test. *)
Fixpoint contiguous (servos : list SB_Servo) : bool :=
  match servos with
  | a :: (b :: _) as rest =>
      (CInt.add (channelNum a) 1 =? channelNum b) && contiguous rest
  | _ => true
  end.

(** The whole angles 0, 1, ..., 180. *)
Definition whole_angles : list Z := map Z.of_nat (seq 0 181).

(** * Properties *)

(** ** The order on floats *)

Section FloatOrder.

Local Ltac order_cases :=
  repeat match goal with
         | s : bool |- _ => destruct s
         end;
  cbn; try congruence;
  repeat match goal with
         | |- context [Z.compare ?x ?y] =>
             destruct (Z.compare_spec x y); subst; cbn; try congruence; try lia
         | H : context [Z.compare ?x ?y] |- _ =>
             destruct (Z.compare_spec x y); subst; cbn in H; try congruence; try lia
         end;
  repeat match goal with
         | |- context [Pos.compare_cont Eq ?x ?y] =>
             change (Pos.compare_cont Eq x y) with (Pos.compare x y);
             destruct (Pos.compare_spec x y); subst; cbn; try congruence; try lia
         | H : context [Pos.compare_cont Eq ?x ?y] |- _ =>
             change (Pos.compare_cont Eq x y) with (Pos.compare x y) in H;
             destruct (Pos.compare_spec x y); subst; cbn in H; try congruence; try lia
         end.

Lemma ltb_irrefl (a : FP.float) : FP.ltb a a = false.
Proof.
  unfold FP.ltb, SFltb, SFcompare.
  destruct a as [s|s| |s m e]; order_cases.
Qed.

Lemma leb_not_gtb (a b : FP.float) : FP.leb a b = true -> FP.gtb a b = false.
Proof.
  unfold FP.leb, FP.gtb, SFleb, SFltb, SFcompare.
  destruct a as [sa|sa| |sa ma ea], b as [sb|sb| |sb mb eb]; intros H; order_cases.
Qed.

Lemma leb_trans (a b c : FP.float) :
  FP.leb a b = true -> FP.leb b c = true -> FP.leb a c = true.
Proof.
  unfold FP.leb, SFleb, SFcompare.
  destruct a as [sa|sa| |sa ma ea], b as [sb|sb| |sb mb eb], c as [sc|sc| |sc mc ec];
    intros H1 H2; order_cases.
Qed.

(** Below [b], and [b] not above [c]: then not above [c]. *)
Lemma ltb_not_gtb (a b c : FP.float) :
  FP.ltb a b = true -> FP.gtb b c = false -> FP.gtb a c = false.
Proof.
  unfold FP.ltb, FP.gtb, SFltb, SFcompare.
  destruct a as [sa|sa| |sa ma ea], b as [sb|sb| |sb mb eb], c as [sc|sc| |sc mc ec];
    intros H1 H2; order_cases.
Qed.

End FloatOrder.

(** ** Error masks *)

Lemma bits_kept_refl (e : Z) : bits_kept e e.
Proof. apply Z.land_diag. Qed.

Lemma bits_kept_lor (e b : Z) : bits_kept e (Z.lor e b).
Proof.
  unfold bits_kept. apply Z.bits_inj'. intros n _.
  rewrite Z.land_spec, Z.lor_spec.
  destruct (Z.testbit e n); reflexivity.
Qed.

Lemma bits_kept_trans (a b c : Z) : bits_kept a b -> bits_kept b c -> bits_kept a c.
Proof.
  unfold bits_kept. intros Hab Hbc.
  rewrite <- Hab at 1. rewrite <- Z.land_assoc, Hbc. exact Hab.
Qed.

(** [bits_kept] read bit by bit. *)
Lemma bits_kept_testbit (a b : Z) :
  bits_kept a b <-> (forall n, Z.testbit a n = true -> Z.testbit b n = true).
Proof.
  unfold bits_kept. split.
  - intros H n Ha. rewrite <- H, Z.land_spec in Ha.
    apply andb_true_iff in Ha. tauto.
  - intros H. apply Z.bits_inj'. intros n _. rewrite Z.land_spec.
    destruct (Z.testbit a n) eqn:Ha; [rewrite (H n Ha)|]; reflexivity.
Qed.

Lemma has_bit_lor (e b : Z) : has_bit (Z.lor e b) b.
Proof.
  unfold has_bit. apply Z.bits_inj'. intros n _.
  rewrite Z.land_spec, Z.lor_spec.
  destruct (Z.testbit e n), (Z.testbit b n); reflexivity.
Qed.

Lemma has_bit_kept (e e' b : Z) : has_bit e b -> bits_kept e e' -> has_bit e' b.
Proof.
  unfold has_bit. intros Hb Hk. apply Z.bits_inj'. intros n _.
  rewrite Z.land_spec. destruct (Z.testbit b n) eqn:Hn; [|apply andb_false_r].
  assert (He : Z.testbit e n = true).
  { rewrite <- Hb, Z.land_spec in Hn. apply andb_true_iff in Hn. tauto. }
  rewrite (proj1 (bits_kept_testbit e e') Hk n He). reflexivity.
Qed.

(** A bit other than the channel one does not change the channel test. *)
Lemma channel_test_lor (e b : Z) :
  Z.land b CHANNEL_ERROR_BIT = 0 ->
  Z.land (Z.lor e b) CHANNEL_ERROR_BIT = Z.land e CHANNEL_ERROR_BIT.
Proof.
  intros H. rewrite Z.land_lor_distr_l, H. apply Z.lor_0_r.
Qed.

Lemma channel_test_raised (e : Z) :
  (Z.land (Z.lor e CHANNEL_ERROR_BIT) CHANNEL_ERROR_BIT =? 0) = false.
Proof.
  rewrite (has_bit_lor e CHANNEL_ERROR_BIT). reflexivity.
Qed.

(** ** Traces *)

Lemma since_app (w w' : World) (evs : list Event) :
  trace w' = trace w ++ evs -> since w w' = evs.
Proof.
  intros H. unfold since. rewrite H, skipn_app, skipn_all, Nat.sub_diag. reflexivity.
Qed.

Lemma since_emit (w : World) (e : Event) : since w (emit e w) = [e].
Proof. apply since_app. reflexivity. Qed.

(** ** Checks *)

Lemma check_errorCode (test : SB_Servo -> bool) (bit : Z) (msg : string) (m : Machine) :
  errorCode (fst (check test bit msg m)) =
  if test (fst m) then Z.lor (errorCode (fst m)) bit else errorCode (fst m).
Proof. destruct m as [s w]. unfold check. cbn. destruct (test s); reflexivity. Qed.

Lemma check_bits_kept (test : SB_Servo -> bool) (bit : Z) (msg : string) (m : Machine) :
  bits_kept (errorCode (fst m)) (errorCode (fst (check test bit msg m))).
Proof.
  rewrite check_errorCode. destruct (test (fst m));
    [apply bits_kept_lor | apply bits_kept_refl].
Qed.

(** ** Single-servo motion *)

Lemma clamp_bits_kept (a : FP.float) (m : Machine) :
  bits_kept (errorCode (fst m)) (errorCode (fst (snd (clamp a m)))).
Proof.
  destruct m as [s w]. unfold clamp.
  destruct (FP.gtb a (maxAngle s)); [apply bits_kept_lor|].
  destruct (FP.ltb a (minAngle s)); [apply bits_kept_lor|apply bits_kept_refl].
Qed.

(** The clamp leaves the channel test and the calibration as they were. *)
Lemma clamp_servo (a : FP.float) (s : SB_Servo) (w : World) :
  exists e, fst (snd (clamp a (s, w))) = set_errorCode s e /\
            Z.land e CHANNEL_ERROR_BIT = Z.land (errorCode s) CHANNEL_ERROR_BIT.
Proof.
  unfold clamp.
  destruct (FP.gtb a (maxAngle s)); [|destruct (FP.ltb a (minAngle s))]; cbn.
  - eexists; split; [reflexivity|]. apply channel_test_lor. reflexivity.
  - eexists; split; [reflexivity|]. apply channel_test_lor. reflexivity.
  - exists (errorCode s). split; [destruct s|]; reflexivity.
Qed.

Lemma clamp_trace (a : FP.float) (s : SB_Servo) (w : World) :
  exists evs, trace (snd (snd (clamp a (s, w)))) = trace w ++ evs /\
              gateway_calls evs = [].
Proof.
  unfold clamp.
  destruct (FP.gtb a (maxAngle s)); [|destruct (FP.ltb a (minAngle s))]; cbn.
  - eexists; split; reflexivity.
  - eexists; split; reflexivity.
  - exists []. split; [symmetry; apply app_nil_r | reflexivity].
Qed.

(** What [rotateToDegrees] sends to the Maestro: nothing when the channel
    is blocked, else one [setTarget] with the pulse of the clamped angle. *)
Lemma rotateToDegrees_calls (a : FP.float) (s : SB_Servo) (w : World) :
  gateway_calls (since w (snd (rotateToDegrees a (s, w)))) =
  if channel_blocked s then []
  else [SetTarget (channelNum s) (degToUS s (fst (clamp a (s, w))))].
Proof.
  unfold rotateToDegrees.
  destruct (clamp_servo a s w) as [e [Hs He]].
  destruct (clamp_trace a s w) as [evs [Ht Hg]].
  destruct (clamp a (s, w)) as [d [s1 w1]]. cbn [fst snd] in *. subst s1.
  unfold channel_blocked, checkChannel, check. rewrite <- He.
  cbn [channelNum set_errorCode errorCode raise].
  destruct ((channelNum s <? 0) || (channelNum s >=? NUM_MAESTRO_CHANNELS)) eqn:Hch.
  - cbn [errorCode set_errorCode raise]. rewrite channel_test_raised.
    rewrite <- orb_assoc, Hch, orb_true_r. cbn [negb snd].
    rewrite (since_app w _ (evs ++ [DebugLine (servoNumber s) "checkChannel() error";
                                    DebugLine (servoNumber s) "Bad channel num, aborting rotateTo()"])).
    + unfold gateway_calls in *. rewrite filter_app, Hg. reflexivity.
    + unfold printDebug, emit; cbn [trace servoNumber channelNum set_errorCode raise]; rewrite ?Ht, <- ?app_assoc; reflexivity.
  - rewrite <- orb_assoc, Hch, orb_false_r. cbn [errorCode set_errorCode channelNum].
    destruct (Z.land e CHANNEL_ERROR_BIT =? 0); cbn [negb snd].
    + rewrite (since_app w _ (evs ++ [SetTarget (channelNum s) (degToUS s d)])).
      * unfold gateway_calls in *. rewrite filter_app, Hg. reflexivity.
      * unfold printDebug, emit; cbn [trace servoNumber channelNum set_errorCode raise]; rewrite ?Ht, <- ?app_assoc; reflexivity.
    + rewrite (since_app w _ (evs ++ [DebugLine (servoNumber s) "Bad channel num, aborting rotateTo()"])).
      * unfold gateway_calls in *. rewrite filter_app, Hg. reflexivity.
      * unfold printDebug, emit; cbn [trace servoNumber channelNum set_errorCode raise]; rewrite ?Ht, <- ?app_assoc; reflexivity.
Qed.

Lemma rotateToDegrees_bits_kept (a : FP.float) (m : Machine) :
  bits_kept (errorCode (fst m)) (errorCode (fst (rotateToDegrees a m))).
Proof.
  unfold rotateToDegrees.
  pose proof (clamp_bits_kept a m) as Hc.
  destruct (clamp a m) as [d m1]. cbn [fst snd] in *.
  pose proof (check_bits_kept
                (fun s => (channelNum s <? 0) || (channelNum s >=? NUM_MAESTRO_CHANNELS))
                CHANNEL_ERROR_BIT "checkChannel() error" m1) as Hk.
  fold checkChannel in Hk.
  destruct (checkChannel m1) as [s2 w2]. cbn [fst] in *.
  apply (bits_kept_trans _ _ _ Hc).
  destruct (negb _); exact Hk.
Qed.

Lemma rotateToDegrees_errorCode (a : FP.float) (m : Machine) :
  errorCode (fst (rotateToDegrees a m)) = errorCode (fst (checkChannel (snd (clamp a m)))).
Proof.
  unfold rotateToDegrees. destruct (clamp a m) as [d m1]. cbn [snd].
  destruct (checkChannel m1) as [s2 w2]. destruct (negb _); reflexivity.
Qed.

Lemma rotateToDegrees_after_clamp (a : FP.float) (m : Machine) :
  bits_kept (errorCode (fst (snd (clamp a m)))) (errorCode (fst (rotateToDegrees a m))).
Proof. rewrite rotateToDegrees_errorCode. apply check_bits_kept. Qed.

Lemma clamp_over (a : FP.float) (s : SB_Servo) (w : World) :
  FP.gtb a (maxAngle s) = true ->
  fst (clamp a (s, w)) = maxAngle s /\
  has_bit (errorCode (fst (snd (clamp a (s, w))))) ROTATE_TO_OVER_ERROR_BIT.
Proof.
  intros H. unfold clamp. rewrite H. split; [reflexivity | apply has_bit_lor].
Qed.

Lemma clamp_under (a : FP.float) (s : SB_Servo) (w : World) :
  FP.gtb a (maxAngle s) = false -> FP.ltb a (minAngle s) = true ->
  fst (clamp a (s, w)) = minAngle s /\
  has_bit (errorCode (fst (snd (clamp a (s, w))))) ROTATE_TO_UNDER_ERROR_BIT.
Proof.
  intros H1 H2. unfold clamp. rewrite H1, H2. split; [reflexivity | apply has_bit_lor].
Qed.

Lemma clamp_inside (a : FP.float) (s : SB_Servo) (w : World) :
  FP.gtb a (maxAngle s) = false -> FP.ltb a (minAngle s) = false ->
  clamp a (s, w) = (a, (s, w)).
Proof. intros H1 H2. unfold clamp. rewrite H1, H2. reflexivity. Qed.

Lemma no_gateway_no_setTarget (evs : list Event) :
  gateway_calls evs = [] -> filter is_setTarget evs = [].
Proof.
  induction evs as [|e evs IH]; [reflexivity|].
  destruct e; cbn; intros H; try discriminate; auto.
Qed.

(** C2 (as amended).  On a unit whose safe-angle window is not inverted
    ([minAngle > maxAngle] is false): a request above [maxAngle] sends the
    Maestro exactly what a request for [maxAngle] itself sends, namely one
    [setTarget] with the pulse of [maxAngle] unless the channel is blocked,
    and sets the rotate-over bit; a request below [minAngle] does the same
    with [minAngle] and the rotate-under bit. *)
Theorem rotateToDegrees_clamps (s : SB_Servo) (w : World) (a : FP.float) :
  FP.gtb (minAngle s) (maxAngle s) = false ->
  (FP.gtb a (maxAngle s) = true ->
     gateway_calls (since w (snd (rotateToDegrees a (s, w)))) =
       gateway_calls (since w (snd (rotateToDegrees (maxAngle s) (s, w)))) /\
     gateway_calls (since w (snd (rotateToDegrees a (s, w)))) =
       (if channel_blocked s then []
        else [SetTarget (channelNum s) (degToUS s (maxAngle s))]) /\
     has_bit (errorCode (fst (rotateToDegrees a (s, w)))) ROTATE_TO_OVER_ERROR_BIT) /\
  (FP.ltb a (minAngle s) = true ->
     gateway_calls (since w (snd (rotateToDegrees a (s, w)))) =
       gateway_calls (since w (snd (rotateToDegrees (minAngle s) (s, w)))) /\
     gateway_calls (since w (snd (rotateToDegrees a (s, w)))) =
       (if channel_blocked s then []
        else [SetTarget (channelNum s) (degToUS s (minAngle s))]) /\
     has_bit (errorCode (fst (rotateToDegrees a (s, w)))) ROTATE_TO_UNDER_ERROR_BIT).
Proof.
  intros Hmm.
  split; intros Ha.
  - destruct (clamp_over a s w Ha) as [Hd Hb].
    rewrite !rotateToDegrees_calls, Hd.
    rewrite (clamp_inside (maxAngle s) s w (ltb_irrefl _) Hmm).
    repeat split.
    eapply has_bit_kept; [exact Hb | apply rotateToDegrees_after_clamp].
  - pose proof (ltb_not_gtb _ _ _ Ha Hmm) as Hnot.
    destruct (clamp_under a s w Hnot Ha) as [Hd Hb].
    rewrite !rotateToDegrees_calls, Hd.
    rewrite (clamp_inside (minAngle s) s w Hmm (ltb_irrefl _)).
    repeat split.
    eapply has_bit_kept; [exact Hb | apply rotateToDegrees_after_clamp].
Qed.

Lemma rotateToDegrees_clamps_witness :
  (gateway_calls (since (snd (hs422 0)) (snd (rotateToDegrees (FP.of_int 200) (hs422 0)))) =
     gateway_calls (since (snd (hs422 0)) (snd (rotateToDegrees (FP.of_int 180) (hs422 0)))) /\
   has_bit (errorCode (fst (rotateToDegrees (FP.of_int 200) (hs422 0)))) ROTATE_TO_OVER_ERROR_BIT) /\
  (gateway_calls (since (snd (hs422 0)) (snd (rotateToDegrees (FP.of_int (-5)) (hs422 0)))) =
     gateway_calls (since (snd (hs422 0)) (snd (rotateToDegrees (FP.of_int 0) (hs422 0)))) /\
   has_bit (errorCode (fst (rotateToDegrees (FP.of_int (-5)) (hs422 0)))) ROTATE_TO_UNDER_ERROR_BIT).
Proof.
  split.
  - pose proof (proj1 (rotateToDegrees_clamps (fst (hs422 0)) (snd (hs422 0)) (FP.of_int 200)
                         eq_refl) eq_refl) as H.
    split; [exact (proj1 H) | exact (proj2 (proj2 H))].
  - pose proof (proj2 (rotateToDegrees_clamps (fst (hs422 0)) (snd (hs422 0)) (FP.of_int (-5))
                         eq_refl) eq_refl) as H.
    split; [exact (proj1 H) | exact (proj2 (proj2 H))].
Defined.

(** C2 as stated fails on a unit with an inverted window.  With
    [minAngle = 100] and [maxAngle = 50], the request 75 is above [maxAngle]
    and is sent as the pulse of 50, while a request for [maxAngle] itself is
    below [minAngle] and is sent as the pulse of 100; and 75, although below
    [minAngle], leaves the rotate-under bit clear. *)
Lemma rotateToDegrees_inverted_window :
  let s := fst inverted_window in
  let w := snd inverted_window in
  let a := FP.of_int 75 in
  FP.gtb a (maxAngle s) = true /\
  gateway_calls (since w (snd (rotateToDegrees a (s, w)))) = [SetTarget 0 4222] /\
  gateway_calls (since w (snd (rotateToDegrees (maxAngle s) (s, w)))) = [SetTarget 0 6444] /\
  gateway_calls (since w (snd (rotateToDegrees a (s, w)))) <>
    gateway_calls (since w (snd (rotateToDegrees (maxAngle s) (s, w)))) /\
  FP.ltb a (minAngle s) = true /\
  ~ has_bit (errorCode (fst (rotateToDegrees a (s, w)))) ROTATE_TO_UNDER_ERROR_BIT.
Proof.
  cbv zeta. repeat split; try (vm_compute; reflexivity); vm_compute; discriminate.
Qed.

(** C5.  On a unit whose channel lies outside [0, NUM_MAESTRO_CHANNELS),
    whatever its mask and whatever the angle, [rotateToDegrees] (a total
    function: it always returns) makes no Maestro call at all, so no
    [setTarget], and the channel bit is set when it returns. *)
Theorem rotateToDegrees_invalid_channel (s : SB_Servo) (w : World) (a : FP.float) :
  channelNum s < 0 \/ NUM_MAESTRO_CHANNELS <= channelNum s ->
  gateway_calls (since w (snd (rotateToDegrees a (s, w)))) = [] /\
  filter is_setTarget (since w (snd (rotateToDegrees a (s, w)))) = [] /\
  has_bit (errorCode (fst (rotateToDegrees a (s, w)))) CHANNEL_ERROR_BIT.
Proof.
  intros Hch.
  assert (Hbad : (channelNum s <? 0) || (channelNum s >=? NUM_MAESTRO_CHANNELS) = true).
  { apply orb_true_iff. destruct Hch; [left; apply Z.ltb_lt | right; apply Z.geb_le]; lia. }
  assert (Hcalls : gateway_calls (since w (snd (rotateToDegrees a (s, w)))) = []).
  { rewrite rotateToDegrees_calls. unfold channel_blocked.
    rewrite <- orb_assoc, Hbad, orb_true_r. reflexivity. }
  split; [exact Hcalls|]. split; [apply no_gateway_no_setTarget; exact Hcalls|].
  rewrite rotateToDegrees_errorCode. unfold checkChannel. rewrite check_errorCode.
  destruct (clamp_servo a s w) as [e [Hs _]]. rewrite Hs. cbn [channelNum set_errorCode].
  rewrite Hbad. apply has_bit_lor.
Qed.

Lemma rotateToDegrees_invalid_channel_witness :
  gateway_calls (since (snd (hs422 9)) (snd (rotateToDegrees (FP.of_int 90) (hs422 9)))) = [] /\
  filter is_setTarget (since (snd (hs422 9)) (snd (rotateToDegrees (FP.of_int 90) (hs422 9)))) = [] /\
  has_bit (errorCode (fst (rotateToDegrees (FP.of_int 90) (hs422 9)))) CHANNEL_ERROR_BIT.
Proof.
  apply (rotateToDegrees_invalid_channel (fst (hs422 9)) (snd (hs422 9)) (FP.of_int 90)).
  right. vm_compute. discriminate.
Defined.

(** C8.  Built from (500, 2500, 0, 180, 0, 180, channel 0), in any world, a
    unit stores the pulse bounds 2000 and 10000 (four times the arguments)
    and [rotateToDegrees(90)] makes exactly one Maestro call,
    [setTarget(0, 6000)], 6000 being the midpoint of the stored bounds. *)
Theorem rotate_to_midpoint (w : World) :
  let m := new_SB_Servo 500 2500 (FP.of_int 0) (FP.of_int 180)
                        (FP.of_int 0) (FP.of_int 180) 0 w in
  minUS (fst m) = 4 * 500 /\ maxUS (fst m) = 4 * 2500 /\
  gateway_calls (since (snd m) (snd (rotateToDegrees (FP.of_int 90) m))) =
    [SetTarget 0 ((minUS (fst m) + maxUS (fst m)) / 2)] /\
  (minUS (fst m) + maxUS (fst m)) / 2 = 6000.
Proof.
  cbv zeta. repeat split.
  rewrite (surjective_pairing (new_SB_Servo _ _ _ _ _ _ _ w)) at 2.
  rewrite rotateToDegrees_calls. vm_compute. reflexivity.
Qed.

(** ** Reading the position *)

Lemma getCurrentDegrees_servo (m : Machine) : fst (snd (getCurrentDegrees m)) = fst m.
Proof.
  destruct m as [s w]. unfold getCurrentDegrees. destruct (negb _); reflexivity.
Qed.

(** With the channel bit in the mask, [getCurrentDegrees] answers -1 and
    leaves the Maestro alone. *)
Lemma getCurrentDegrees_masked (s : SB_Servo) (w : World) :
  has_bit (errorCode s) CHANNEL_ERROR_BIT ->
  fst (getCurrentDegrees (s, w)) = FP.of_int (-1) /\
  gateway_calls (since w (snd (snd (getCurrentDegrees (s, w))))) = [].
Proof.
  unfold has_bit, getCurrentDegrees. intros H. rewrite H. cbn [negb Z.eqb CHANNEL_ERROR_BIT fst snd].
  split; [reflexivity|]. unfold printDebug. rewrite since_emit. reflexivity.
Qed.

Lemma rotateBy_bits_kept (d : FP.float) (m : Machine) :
  bits_kept (errorCode (fst m)) (errorCode (fst (rotateBy d m))).
Proof.
  unfold rotateBy. pose proof (getCurrentDegrees_servo m) as H.
  destruct (getCurrentDegrees m) as [cur m1]. cbn [fst snd] in H.
  rewrite <- H. apply rotateToDegrees_bits_kept.
Qed.

(** C9.  The mask only gathers bits.  Each of the seven construction
    checks, [rotateToDegrees], [rotateBy], [getCurrentDegrees] and
    [getErrorCode] returns with every bit that was set before still set;
    [clearErrorCode] leaves the mask at 0, so that [getErrorCode] right
    after it returns 0. *)
Theorem errorCode_accumulates (m : Machine) (a : FP.float) :
  Forall (fun chk => bits_kept (errorCode (fst m)) (errorCode (fst (chk m))))
         construction_checks /\
  bits_kept (errorCode (fst m)) (errorCode (fst (rotateToDegrees a m))) /\
  bits_kept (errorCode (fst m)) (errorCode (fst (rotateBy a m))) /\
  bits_kept (errorCode (fst m)) (errorCode (fst (snd (getCurrentDegrees m)))) /\
  bits_kept (errorCode (fst m)) (errorCode (fst (snd (getErrorCode m)))) /\
  errorCode (fst (clearErrorCode m)) = 0 /\
  fst (getErrorCode (clearErrorCode m)) = 0.
Proof.
  repeat split.
  - unfold construction_checks. repeat constructor; apply check_bits_kept.
  - apply rotateToDegrees_bits_kept.
  - apply rotateBy_bits_kept.
  - rewrite getCurrentDegrees_servo. apply bits_kept_refl.
  - apply bits_kept_refl.
  - destruct m; reflexivity.
  - destruct m; reflexivity.
Qed.

(** C6, at the input where the code departs from it.  The unit is built on
    channel 9, so the constructor sets the channel bit; the caller resets
    the mask with [clearErrorCode]; [getCurrentDegrees] then tests the
    mask only, asks the Maestro for channel 9 and returns the converted
    reading (90 for a reported 6000), not -1. *)
Theorem getCurrentDegrees_after_clear :
  let m := clearErrorCode off_board in
  channelNum (fst m) = 9 /\
  has_bit (errorCode (fst off_board)) CHANNEL_ERROR_BIT /\
  fst (getCurrentDegrees m) = FP.of_int 90 /\
  fst (getCurrentDegrees m) <> FP.of_int (-1) /\
  gateway_calls (since (snd m) (snd (snd (getCurrentDegrees m)))) = [GetPosition 9].
Proof.
  cbv zeta. repeat split; try (vm_compute; reflexivity); vm_compute; discriminate.
Qed.

(** C3, at an input where the code departs from it.  The header documents
    the three-argument constructor as [(minDegr, maxDegr, channel)]; the
    source file passes its first two arguments on as pulse bounds and takes
    every angle from the defaults.  Called with (10, 170, 0) it builds the
    pulse range 40..680 and the angles 0..180, where the documented
    behaviour is the pulse range 2000..10000 and the angles 10..170. *)
Theorem three_argument_constructor_takes_pulses :
  let m := new_SB_Servo3 10 170 0 (mkWorld 0 (fun _ => 6000) []) in
  let s := fst m in
  m = new_SB_Servo 10 170 (FP.of_int 0) (FP.of_int 180) (FP.of_int 0) (FP.of_int 180)
                   0 (mkWorld 0 (fun _ => 6000) []) /\
  minUS s = 40 /\ maxUS s = 680 /\
  minDegreeRange s = FP.of_int 0 /\ maxDegreeRange s = FP.of_int 180 /\
  minAngle s = FP.of_int 0 /\ maxAngle s = FP.of_int 180 /\
  minUS s <> 4 * DEFAULT_MIN_US /\ maxUS s <> 4 * DEFAULT_MAX_US /\
  minAngle s <> FP.of_int 10 /\ maxAngle s <> FP.of_int 170.
Proof.
  cbv zeta. repeat split; try (vm_compute; reflexivity); vm_compute; discriminate.
Qed.

(** C1, at an input where the code departs from it.  On a unit with the
    rated range 10..180 (no error bit set), 90 degrees becomes the pulse
    6000 and the pulse 6000 becomes 100 degrees: [usToDegrees] adds
    [minDegreeRange], [degToUS] never takes it off, so the round trip is off
    by [minDegreeRange], here 10 degrees. *)
Theorem round_trip_offset :
  let s := fst offset_range in
  errorCode s = 0 /\
  FP.leb (minAngle s) (FP.of_int 90) = true /\
  FP.leb (FP.of_int 90) (maxAngle s) = true /\
  degToUS s (FP.of_int 90) = 6000 /\
  usToDegrees s (degToUS s (FP.of_int 90)) = FP.of_int 100 /\
  FP.sub (usToDegrees s (degToUS s (FP.of_int 90))) (FP.of_int 90) = minDegreeRange s.
Proof.
  cbv zeta. repeat split; vm_compute; reflexivity.
Qed.

(** With the rated range starting at 0, as on the default HS-422, every
    whole angle from 0 to 180 comes back within one pulse step (180/8000 of
    a degree). *)
Lemma round_trip_hs422 :
  let s := fst (hs422 0) in
  forallb (fun a =>
             FP.leb (SFabs (FP.sub (usToDegrees s (degToUS s (FP.of_int a))) (FP.of_int a)))
                    (FP.div (FP.of_int 180) (FP.of_int 8000)))
          (map Z.of_nat (seq 0 181)) = true.
Proof. vm_compute. reflexivity. Qed.

(** ** Construction *)

Lemma wrap_in_range (z : Z) : CInt.in_range z -> CInt.wrap z = z.
Proof.
  unfold CInt.in_range, CInt.INT_MIN, CInt.INT_MAX, CInt.wrap.
  change (2 ^ 31) with 2147483648. change (2 ^ 32) with 4294967296.
  intros H. rewrite Z.mod_small; lia.
Qed.

(** The mask the constructor leaves: the checks fold their bits in, in
    order, starting from 0. *)
Lemma new_SB_Servo_errorCode
    (pulseMin pulseMax : Z) (rangeMin rangeMax angleMin angleMax : FP.float)
    (channel : Z) (w : World) :
  errorCode (fst (new_SB_Servo pulseMin pulseMax rangeMin rangeMax angleMin angleMax
                               channel w)) =
  mask_of
    [((CInt.mul 4 pulseMin <? 0) || (CInt.mul 4 pulseMin >? CInt.mul 4 pulseMax), US_ERROR_BIT);
     ((CInt.mul 4 pulseMax <? 0) || (CInt.mul 4 pulseMax <=? CInt.mul 4 pulseMin), US_ERROR_BIT);
     (FP.ltb rangeMin (FP.of_int 0) || FP.gtb rangeMin rangeMax, RANGE_ERROR_BIT);
     (FP.gtb rangeMax (FP.of_int 360) || FP.ltb rangeMax rangeMin, RANGE_ERROR_BIT);
     (FP.ltb angleMin (FP.of_int 0) || FP.gtb angleMin angleMax || FP.ltb angleMin rangeMin,
      ANGLE_ERROR_BIT);
     (FP.ltb angleMax (FP.of_int 0) || FP.ltb angleMax angleMin || FP.gtb angleMax rangeMax,
      ANGLE_ERROR_BIT);
     ((channel <? 0) || (channel >=? NUM_MAESTRO_CHANNELS), CHANNEL_ERROR_BIT)].
Proof.
  unfold new_SB_Servo, checkChannel, checkMaxAngle, checkMinAngle, checkMaxDegreeRange,
    checkMinDegreeRange, checkMaxUS, checkMinUS, check, mask_of.
  cbn [fold_left fst snd].
  cbn [errorCode minUS maxUS minDegreeRange maxDegreeRange minAngle maxAngle channelNum
       raise set_errorCode].
  repeat match goal with
         | |- context [if ?b then _ else _] =>
             destruct b;
             cbn [fst snd errorCode minUS maxUS minDegreeRange maxDegreeRange minAngle
                  maxAngle channelNum raise set_errorCode]
         end;
    reflexivity.
Qed.

(** C4 (as amended).  When both pulse arguments are small enough for their
    fourfold to fit an [int], [pulseMin >= pulseMax], and the range, the
    angles and the channel satisfy the invariants of the data model, the
    seven-argument constructor (a total function) returns a unit whose mask
    is exactly [US_ERROR_BIT]. *)
Theorem inverted_pulses_set_only_the_pulse_bit
    (pulseMin pulseMax : Z) (rangeMin rangeMax angleMin angleMax : FP.float)
    (channel : Z) (w : World) :
  CInt.in_range (4 * pulseMin) -> CInt.in_range (4 * pulseMax) ->
  pulseMax <= pulseMin ->
  range_invariant rangeMin rangeMax ->
  angle_invariant rangeMin rangeMax angleMin angleMax ->
  channel_invariant channel ->
  errorCode (fst (new_SB_Servo pulseMin pulseMax rangeMin rangeMax angleMin angleMax
                               channel w)) = US_ERROR_BIT.
Proof.
  intros Hmin Hmax Hord [Hr0 [Hr Hr360]] [Hra [Ha Har]] Hch.
  pose proof (leb_trans _ _ _ Hr0 Hra) as Ha0.
  pose proof (leb_trans _ _ _ Ha0 Ha) as Hb0.
  rewrite new_SB_Servo_errorCode.
  unfold CInt.mul. rewrite (wrap_in_range _ Hmin), (wrap_in_range _ Hmax).
  replace ((channel <? 0) || (channel >=? NUM_MAESTRO_CHANNELS)) with false
    by (unfold channel_invariant in Hch; symmetry; apply orb_false_iff; split;
        [apply Z.ltb_ge | rewrite Z.geb_leb; apply Z.leb_gt]; lia).
  change (FP.ltb angleMax angleMin) with (FP.gtb angleMin angleMax).
  change (FP.ltb angleMin rangeMin) with (FP.gtb rangeMin angleMin).
  change (FP.ltb rangeMax rangeMin) with (FP.gtb rangeMin rangeMax).
  change (FP.ltb angleMax (FP.of_int 0)) with (FP.gtb (FP.of_int 0) angleMax).
  change (FP.ltb angleMin (FP.of_int 0)) with (FP.gtb (FP.of_int 0) angleMin).
  change (FP.ltb rangeMin (FP.of_int 0)) with (FP.gtb (FP.of_int 0) rangeMin).
  rewrite (leb_not_gtb _ _ Hr0), (leb_not_gtb _ _ Hr), (leb_not_gtb _ _ Hr360),
    (leb_not_gtb _ _ Hra), (leb_not_gtb _ _ Ha), (leb_not_gtb _ _ Har),
    (leb_not_gtb _ _ Ha0), (leb_not_gtb _ _ Hb0).
  replace (4 * pulseMax <=? 4 * pulseMin) with true by (symmetry; apply Z.leb_le; lia).
  rewrite orb_true_r. unfold mask_of. cbn [fold_left fst snd orb].
  destruct ((4 * pulseMin <? 0) || (4 * pulseMin >? 4 * pulseMax)); reflexivity.
Qed.

Lemma inverted_pulses_set_only_the_pulse_bit_witness :
  errorCode (fst (new_SB_Servo 2500 500 (FP.of_int 0) (FP.of_int 180)
                               (FP.of_int 0) (FP.of_int 180) 0
                               (mkWorld 0 (fun _ => 6000) []))) = US_ERROR_BIT.
Proof.
  apply inverted_pulses_set_only_the_pulse_bit.
  - vm_compute. split; discriminate.
  - vm_compute. split; discriminate.
  - lia.
  - repeat split; reflexivity.
  - repeat split; reflexivity.
  - unfold channel_invariant, NUM_MAESTRO_CHANNELS. lia.
Defined.

(** C4 as stated fails once the scaling leaves the [int] range: with
    [pulseMin = 2^30] and [pulseMax = 1], every other argument valid, the
    stored bounds are 0 and 4 and no bit is set at all. *)
Lemma inverted_pulses_overflow :
  let m := new_SB_Servo (2 ^ 30) 1 (FP.of_int 0) (FP.of_int 180)
                        (FP.of_int 0) (FP.of_int 180) 0
                        (mkWorld 0 (fun _ => 6000) []) in
  1 <= 2 ^ 30 /\
  range_invariant (FP.of_int 0) (FP.of_int 180) /\
  angle_invariant (FP.of_int 0) (FP.of_int 180) (FP.of_int 0) (FP.of_int 180) /\
  channel_invariant 0 /\
  minUS (fst m) = 0 /\ maxUS (fst m) = 4 /\
  errorCode (fst m) = 0 /\
  errorCode (fst m) <> US_ERROR_BIT.
Proof.
  cbv zeta. repeat split; try (vm_compute; reflexivity); vm_compute; discriminate.
Qed.

(** ** Fleet dispatch *)

Lemma to_size_t_wrap (k : Z) : CInt.to_size_t (CInt.wrap k) = k mod 2 ^ 32.
Proof.
  unfold CInt.to_size_t, CInt.wrap.
  rewrite Zminus_mod_idemp_l. f_equal. lia.
Qed.

Lemma add_wrap (k : Z) : CInt.add (CInt.wrap k) 1 = CInt.wrap (k + 1).
Proof.
  unfold CInt.add, CInt.wrap. f_equal.
  replace ((k + 2 ^ 31) mod 2 ^ 32 - 2 ^ 31 + 1 + 2 ^ 31)
    with ((k + 2 ^ 31) mod 2 ^ 32 + 1) by lia.
  rewrite Zplus_mod_idemp_l. f_equal. lia.
Qed.

Lemma at_index_of_nat {A : Type} (l : list A) (j : nat) :
  at_index l (Z.of_nat j) = nth_error l j.
Proof.
  unfold at_index. destruct (Z.ltb_spec (Z.of_nat j) 0); [lia|].
  rewrite Nat2Z.id. reflexivity.
Qed.

Lemma nth_error_inside {A : Type} (l : list A) (j : nat) :
  Z.of_nat j < size l -> exists x, nth_error l j = Some x.
Proof.
  unfold size. intros H. destruct (nth_error l j) eqn:E; [eauto|].
  apply nth_error_None in E. lia.
Qed.

Lemma nth_error_outside {A : Type} (l : list A) (j : nat) :
  size l <= Z.of_nat j -> nth_error l j = None.
Proof. unfold size. intros H. apply nth_error_None. lia. Qed.

Lemma scan_bound (servos : list SB_Servo) :
  1 <= size servos ->
  0 <= CInt.to_size_t (size servos - 1) <= size servos - 1 /\
  CInt.to_size_t (size servos - 1) < 2 ^ 32.
Proof.
  intros H. unfold CInt.to_size_t.
  pose proof (Z.mod_pos_bound (size servos - 1) (2 ^ 32) eq_refl).
  pose proof (Z.mod_le (size servos - 1) (2 ^ 32)).
  lia.
Qed.

(** On a non-empty vector the contiguity scan ends normally; it only
    prints, and it prints on every unit whose successor is not on the
    next channel. *)
Lemma contiguity_scan_done (servos : list SB_Servo) :
  1 <= size servos ->
  forall (fuel j : nat) (w : World),
    Z.of_nat j <= CInt.to_size_t (size servos - 1) ->
    CInt.to_size_t (size servos - 1) - Z.of_nat j < Z.of_nat fuel ->
    exists evs,
      contiguity_scan fuel servos (CInt.wrap (Z.of_nat j)) w =
        Done (mkWorld (servoCount w) (position w) (trace w ++ evs)) /\
      gateway_calls evs = [] /\
      forall (i : nat) (a b : SB_Servo),
        (j <= i)%nat -> Z.of_nat i < CInt.to_size_t (size servos - 1) ->
        nth_error servos i = Some a -> nth_error servos (S i) = Some b ->
        CInt.add (channelNum a) 1 <> channelNum b ->
        In (DebugLine (servoNumber a) continuity_msg) evs.
Proof.
  intros Hlen. destruct (scan_bound servos Hlen) as [[HB0 HB] HB32].
  induction fuel as [|fuel IH]; intros j w Hj Hfuel; [lia|].
  cbn [contiguity_scan].
  rewrite to_size_t_wrap, Z.mod_small by lia.
  destruct (Z.ltb_spec (Z.of_nat j) (CInt.to_size_t (size servos - 1))) as [Hlt|Hge].
  - rewrite add_wrap, to_size_t_wrap, Z.mod_small by lia.
    replace (Z.of_nat j + 1) with (Z.of_nat (S j)) by lia.
    rewrite !at_index_of_nat.
    destruct (nth_error_inside servos j) as [a Ea]; [lia|].
    destruct (nth_error_inside servos (S j)) as [b Eb]; [lia|].
    rewrite Ea, Eb.
    destruct (Z.eqb_spec (CInt.add (channelNum a) 1) (channelNum b)) as [Heq|Hne];
      cbn [negb].
    + destruct (IH (S j) w) as [evs [Hrun [Hg Hin]]]; [lia|lia|].
      exists evs. split; [exact Hrun|]. split; [exact Hg|].
      intros i a' b' Hji Hi Ea' Eb' Hne.
      destruct (Nat.eq_dec i j) as [->|Hij].
      * rewrite Ea in Ea'. rewrite Eb in Eb'.
        injection Ea' as <-. injection Eb' as <-. contradiction.
      * apply (Hin i a' b'); auto. lia.
    + destruct (IH (S j) (printDebug a continuity_msg w)) as [evs [Hrun [Hg Hin]]];
        [lia|lia|].
      exists (DebugLine (servoNumber a) continuity_msg :: evs).
      split; [|split].
      * rewrite Hrun. unfold printDebug, emit. cbn [servoCount position trace].
        rewrite <- app_assoc. reflexivity.
      * exact Hg.
      * intros i a' b' Hji Hi Ea' Eb' Hne'.
        destruct (Nat.eq_dec i j) as [->|Hij].
        -- rewrite Ea in Ea'. injection Ea' as <-. left. reflexivity.
        -- right. apply (Hin i a' b'); auto. lia.
  - exists []. split; [|split].
    + rewrite app_nil_r. destruct w; reflexivity.
    + reflexivity.
    + intros i a b Hji Hi. lia.
Qed.

(** On an empty vector the bound wraps to [2^32 - 1] and the first
    iteration reads [servos[0]]. *)
Lemma contiguity_scan_empty (fuel : nat) (w : World) :
  contiguity_scan (S fuel) [] 0 w = Fault.
Proof. reflexivity. Qed.

Lemma length_list_set {A : Type} (l : list A) (n : nat) (x : A) :
  List.length (list_set l n x) = List.length l.
Proof.
  revert n. induction l as [|h t IH]; intros [|n]; cbn; try reflexivity.
  rewrite IH. reflexivity.
Qed.

Lemma nth_error_list_set_eq {A : Type} (l : list A) (n : nat) (x : A) :
  (n < List.length l)%nat -> nth_error (list_set l n x) n = Some x.
Proof.
  revert n. induction l as [|h t IH]; intros [|n] H; cbn in *; try lia.
  - reflexivity.
  - apply IH. lia.
Qed.

Lemma nth_error_list_set_ne {A : Type} (l : list A) (n m : nat) (x : A) :
  n <> m -> nth_error (list_set l n x) m = nth_error l m.
Proof.
  revert n m. induction l as [|h t IH]; intros [|n] [|m] H; cbn; try reflexivity.
  - contradiction.
  - apply IH. congruence.
Qed.

Lemma small_index (j : nat) :
  Z.of_nat j <= NUM_MAESTRO_CHANNELS ->
  CInt.to_size_t (Z.of_nat j) = Z.of_nat j /\
  CInt.add (Z.of_nat j) 1 = Z.of_nat (S j).
Proof.
  unfold NUM_MAESTRO_CHANNELS, CInt.to_size_t, CInt.add. intros H. split.
  - apply Z.mod_small. change (2 ^ 32) with 4294967296. lia.
  - rewrite wrap_in_range; [lia|].
    unfold CInt.in_range, CInt.INT_MIN, CInt.INT_MAX.
    change (2 ^ 31) with 2147483648. lia.
Qed.

(** With no more angles than units and than array entries, the fill loop
    ends normally, having written entry [i] from unit [i] and angle [i] and
    nothing else. *)
Lemma fill_targets_done (servos : list SB_Servo) (degrees : list FP.float) :
  size degrees <= size servos -> size degrees <= NUM_MAESTRO_CHANNELS ->
  forall (fuel j : nat) (targets : list (option Z)),
    Z.of_nat j <= size degrees ->
    size degrees - Z.of_nat j < Z.of_nat fuel ->
    size targets = NUM_MAESTRO_CHANNELS ->
    exists targets',
      fill_targets fuel servos degrees (Z.of_nat j) targets = Done targets' /\
      size targets' = NUM_MAESTRO_CHANNELS /\
      (forall (i : nat) (sv : SB_Servo) (d : FP.float),
          (j <= i)%nat -> nth_error servos i = Some sv -> nth_error degrees i = Some d ->
          nth_error targets' i = Some (Some (CInt.to_uint16 (degToUS sv d)))) /\
      (forall i : nat,
          (i < j)%nat \/ size degrees <= Z.of_nat i ->
          nth_error targets' i = nth_error targets i).
Proof.
  intros Hsv Hmax.
  induction fuel as [|fuel IH]; intros j targets Hj Hfuel Hlen; [lia|].
  cbn [fill_targets].
  destruct (small_index j) as [Hsz Hnext]; [lia|]. rewrite Hsz, Hnext.
  destruct (Z.ltb_spec (Z.of_nat j) (size degrees)) as [Hlt|Hge].
  - rewrite !at_index_of_nat.
    destruct (nth_error_inside servos j) as [sv Esv]; [lia|].
    destruct (nth_error_inside degrees j) as [d Ed]; [lia|].
    rewrite Esv, Ed. unfold array_set.
    replace ((0 <=? Z.of_nat j) && (Z.of_nat j <? size targets)) with true
      by (symmetry; apply andb_true_iff; split; [apply Z.leb_le|apply Z.ltb_lt]; lia).
    rewrite Nat2Z.id.
    destruct (IH (S j) (list_set targets j (Some (CInt.to_uint16 (degToUS sv d)))))
      as [t' [Hrun [Hlen' [Hwritten Hrest]]]].
    + lia.
    + lia.
    + unfold size in *. rewrite length_list_set. exact Hlen.
    + exists t'. split; [exact Hrun|]. split; [exact Hlen'|]. split.
      * intros i sv' d' Hji Esv' Ed'.
        destruct (Nat.eq_dec i j) as [->|Hij].
        -- rewrite Esv in Esv'. rewrite Ed in Ed'.
           injection Esv' as <-. injection Ed' as <-.
           rewrite Hrest by (left; lia).
           apply nth_error_list_set_eq. unfold size in *. lia.
        -- apply Hwritten; auto. lia.
      * intros i Hi. rewrite Hrest by lia.
        apply nth_error_list_set_ne. lia.
  - exists targets. split; [reflexivity|]. split; [exact Hlen|]. split.
    + intros i sv d Hji Esv Ed.
      rewrite (nth_error_outside degrees i) in Ed by lia. discriminate.
    + reflexivity.
Qed.

(** With more angles than units, or than array entries, the fill loop runs
    into the end of [servos] or of [targets]. *)
Lemma fill_targets_fault (servos : list SB_Servo) (degrees : list FP.float) :
  size servos < size degrees \/ NUM_MAESTRO_CHANNELS < size degrees ->
  forall (fuel j : nat) (targets : list (option Z)),
    Z.of_nat j <= size servos -> Z.of_nat j <= NUM_MAESTRO_CHANNELS ->
    Z.min (size servos) NUM_MAESTRO_CHANNELS - Z.of_nat j < Z.of_nat fuel ->
    size targets = NUM_MAESTRO_CHANNELS ->
    fill_targets fuel servos degrees (Z.of_nat j) targets = Fault.
Proof.
  intros Hbad.
  induction fuel as [|fuel IH]; intros j targets Hjs Hj8 Hfuel Hlen; [lia|].
  cbn [fill_targets].
  destruct (small_index j) as [Hsz Hnext]; [lia|]. rewrite Hsz, Hnext.
  destruct (Z.ltb_spec (Z.of_nat j) (size degrees)) as [Hlt|Hge]; [|lia].
  rewrite !at_index_of_nat.
  destruct (nth_error servos j) as [sv|] eqn:Esv; [|reflexivity].
  destruct (nth_error_inside degrees j) as [d Ed]; [lia|]. rewrite Ed.
  assert (Hin : Z.of_nat j < size servos).
  { unfold size. assert (nth_error servos j <> None) as Hn by congruence.
    apply nth_error_Some in Hn. lia. }
  unfold array_set.
  destruct (Z.ltb_spec (Z.of_nat j) (size targets)) as [Hlt8|Hge8].
  - replace (0 <=? Z.of_nat j) with true by (symmetry; apply Z.leb_le; lia).
    cbn [andb]. rewrite Nat2Z.id. apply IH; try lia.
    unfold size in *. rewrite length_list_set. exact Hlen.
  - rewrite andb_false_r. reflexivity.
Qed.

Lemma size_fresh_targets : size fresh_targets = NUM_MAESTRO_CHANNELS.
Proof. reflexivity. Qed.

Lemma size_nonneg {A : Type} (l : list A) : 0 <= size l.
Proof. unfold size. lia. Qed.

(** C10.  [setMultipleTargets] never exhausts the step budget of its
    loops, and it ends normally exactly under the precondition [in_bounds]:
    [1 <= servos.size()], [degrees.size() <= servos.size()] and
    [degrees.size() <= NUM_MAESTRO_CHANNELS]; otherwise some index leaves
    its vector or array ([Fault]).  In particular the empty [servos] faults
    (the bound [servos.size() - 1] wraps and [servos[0]] is read), and so
    does any [degrees] longer than the eight-entry [targets]. *)
Theorem setMultipleTargets_in_bounds
    (servos : list SB_Servo) (degrees : list FP.float) (w : World) :
  match setMultipleTargets servos degrees w with
  | Done _ => in_bounds servos degrees = true
  | Fault => in_bounds servos degrees = false
  | Timeout => False
  end.
Proof.
  unfold setMultipleTargets, in_bounds.
  destruct servos as [|s0 rest] eqn:Eservos.
  - rewrite contiguity_scan_empty. reflexivity.
  - rewrite <- Eservos.
    assert (Hlen : 1 <= size servos) by (subst servos; unfold size; cbn [List.length]; lia).
    destruct (scan_bound servos Hlen) as [[HB0 HB] _].
    destruct (contiguity_scan_done servos Hlen (S (List.length servos)) 0 w)
      as [evs [Hrun _]].
    + cbn. lia.
    + unfold size in *. lia.
    + change (CInt.wrap (Z.of_nat 0)) with 0 in Hrun. rewrite Hrun.
      replace (1 <=? size servos) with true by (symmetry; apply Z.leb_le; lia).
      cbn [andb].
      destruct (Z.leb_spec (size degrees) (size servos)) as [Hds|Hds];
        [destruct (Z.leb_spec (size degrees) NUM_MAESTRO_CHANNELS) as [Hd8|Hd8]|].
      * destruct (fill_targets_done servos degrees Hds Hd8 (S (List.length degrees)) 0
                    fresh_targets) as [t' [Hfill _]].
        -- pose proof (size_nonneg degrees). cbn. lia.
        -- unfold size. lia.
        -- apply size_fresh_targets.
        -- change (Z.of_nat 0) with 0 in Hfill. rewrite Hfill.
           subst servos. reflexivity.
      * pose proof (fill_targets_fault servos degrees (or_intror Hd8)
                      (S (List.length degrees)) 0 fresh_targets) as Hfill.
        change (Z.of_nat 0) with 0 in Hfill. rewrite Hfill; try reflexivity.
        -- lia.
        -- unfold NUM_MAESTRO_CHANNELS. lia.
        -- unfold size in *. lia.
      * pose proof (fill_targets_fault servos degrees (or_introl Hds)
                      (S (List.length degrees)) 0 fresh_targets) as Hfill.
        change (Z.of_nat 0) with 0 in Hfill. rewrite Hfill; try reflexivity.
        -- lia.
        -- unfold NUM_MAESTRO_CHANNELS. lia.
        -- unfold size in *. lia.
Qed.

(** C7 (as amended).  For a batch of [n] units and [n] angles with
    [n <= NUM_MAESTRO_CHANNELS] in which unit [i] is not followed by the
    unit of the next channel ([servos[i].channelNum + 1 != servos[i+1].channelNum],
    the source's own test), [setMultipleTargets] ends normally, prints the
    continuity line on unit [i], and makes exactly one Maestro call,
    [setMultiTarget(n, servos[0].channelNum, targets)], where entry [j] of
    [targets] is [degToUS] of unit [j] at angle [j]. *)
Theorem setMultipleTargets_not_contiguous
    (servos : list SB_Servo) (degrees : list FP.float) (w : World)
    (i : nat) (a b : SB_Servo) :
  List.length degrees = List.length servos ->
  size servos <= NUM_MAESTRO_CHANNELS ->
  nth_error servos i = Some a -> nth_error servos (S i) = Some b ->
  CInt.add (channelNum a) 1 <> channelNum b ->
  exists (w' : World) (first : SB_Servo) (targets : list (option Z)),
    setMultipleTargets servos degrees w = Done w' /\
    nth_error servos 0 = Some first /\
    In (DebugLine (servoNumber a) continuity_msg) (since w w') /\
    gateway_calls (since w w') =
      [SetMultiTarget (size servos) (channelNum first) targets] /\
    forall (j : nat) (sv : SB_Servo) (d : FP.float),
      nth_error servos j = Some sv -> nth_error degrees j = Some d ->
      nth_error targets j = Some (Some (CInt.to_uint16 (degToUS sv d))).
Proof.
  intros Hsame Hmax Ea Eb Hne.
  assert (Hi : (S i < List.length servos)%nat)
    by (apply nth_error_Some; congruence).
  assert (Hlen : 1 <= size servos) by (unfold size; lia).
  assert (HB : CInt.to_size_t (size servos - 1) = size servos - 1).
  { unfold CInt.to_size_t. apply Z.mod_small.
    unfold NUM_MAESTRO_CHANNELS in Hmax. change (2 ^ 32) with 4294967296. lia. }
  destruct (contiguity_scan_done servos Hlen (S (List.length servos)) 0 w)
    as [evs [Hrun [Hg Hin]]].
  { cbn. lia. }
  { unfold size in *. lia. }
  change (CInt.wrap (Z.of_nat 0)) with 0 in Hrun.
  destruct (fill_targets_done servos degrees) with
    (fuel := S (List.length degrees)) (j := 0%nat) (targets := fresh_targets)
    as [targets [Hfill [_ [Hwritten _]]]].
  { unfold size. lia. }
  { unfold size in *. lia. }
  { pose proof (size_nonneg degrees). cbn. lia. }
  { unfold size. lia. }
  { apply size_fresh_targets. }
  change (Z.of_nat 0) with 0 in Hfill.
  destruct (nth_error_inside servos 0) as [first Efirst]; [cbn; lia|].
  unfold setMultipleTargets. rewrite Hrun, Hfill.
  change 0 with (Z.of_nat 0) at 1. rewrite at_index_of_nat, Efirst.
  rewrite wrap_in_range.
  2:{ unfold CInt.in_range, CInt.INT_MIN, CInt.INT_MAX, NUM_MAESTRO_CHANNELS in *.
      change (2 ^ 31) with 2147483648. lia. }
  eexists. exists first, targets. split; [reflexivity|]. split; [reflexivity|].
  rewrite (since_app w _ (evs ++ [SetMultiTarget (size servos) (channelNum first) targets]))
    by (cbn; rewrite <- app_assoc; reflexivity).
  split; [|split].
  - apply in_or_app. left. apply (Hin i a b); auto; [lia|].
    rewrite HB. unfold size. lia.
  - unfold gateway_calls in *. rewrite filter_app, Hg. reflexivity.
  - intros j sv d Esv Ed. apply (Hwritten j sv d); auto. lia.
Qed.

Lemma setMultipleTargets_not_contiguous_witness :
  exists (w' : World) (first : SB_Servo) (targets : list (option Z)),
    setMultipleTargets (fst trio) [FP.of_int 0; FP.of_int 90; FP.of_int 180] (snd trio)
      = Done w' /\
    nth_error (fst trio) 0 = Some first /\
    In (DebugLine (servoNumber (nth 0 (fst trio) (fst (hs422 0)))) continuity_msg)
       (since (snd trio) w') /\
    gateway_calls (since (snd trio) w') =
      [SetMultiTarget (size (fst trio)) (channelNum first) targets] /\
    forall (j : nat) (sv : SB_Servo) (d : FP.float),
      nth_error (fst trio) j = Some sv ->
      nth_error [FP.of_int 0; FP.of_int 90; FP.of_int 180] j = Some d ->
      nth_error targets j = Some (Some (CInt.to_uint16 (degToUS sv d))).
Proof.
  apply (setMultipleTargets_not_contiguous
           (fst trio) [FP.of_int 0; FP.of_int 90; FP.of_int 180] (snd trio) 0%nat
           (nth 0 (fst trio) (fst (hs422 0))) (nth 1 (fst trio) (fst (hs422 0)))).
  - reflexivity.
  - vm_compute. discriminate.
  - reflexivity.
  - reflexivity.
  - vm_compute. discriminate.
Defined.

(** The batch on the channels 2, 4 and 5, run: one continuity line, on the
    first unit, then the single bulk call with base channel 2. *)
Lemma setMultipleTargets_trio :
  match setMultipleTargets (fst trio) [FP.of_int 0; FP.of_int 90; FP.of_int 180] (snd trio) with
  | Done w' =>
      since (snd trio) w' =
      [DebugLine 0 continuity_msg;
       SetMultiTarget 3 2 [Some 2000; Some 6000; Some 10000; None; None; None; None; None]]
  | _ => False
  end.
Proof. vm_compute. reflexivity. Qed.

(** C7 as stated fails for a batch larger than the [targets] array: nine
    units (the first two on the channels 0 and 2) with nine angles make the
    fill loop write [targets[8]], outside the eight entries, and the run
    does not reach the bulk call. *)
Lemma setMultipleTargets_nine_units :
  let servos := fst nonet in
  let degrees := repeat (FP.of_int 90) 9 in
  List.length servos = 9%nat /\ List.length degrees = 9%nat /\
  (exists a b, nth_error servos 0 = Some a /\ nth_error servos 1 = Some b /\
               CInt.add (channelNum a) 1 <> channelNum b) /\
  setMultipleTargets servos degrees (snd nonet) = Fault /\
  ~ (exists w', setMultipleTargets servos degrees (snd nonet) = Done w').
Proof.
  cbv zeta. split; [reflexivity|]. split; [reflexivity|]. split; [|split].
  - eexists. eexists. split; [reflexivity|]. split; [reflexivity|].
    vm_compute. discriminate.
  - vm_compute. reflexivity.
  - intros [w' H]. vm_compute in H. discriminate.
Qed.

(** * Beyond the claims *)

(** ** More on the order on floats *)

Ltac compare_cases :=
  repeat match goal with
         | s : bool |- _ => destruct s
         end;
  cbn in *; try congruence;
  repeat match goal with
         | |- context [Z.compare ?x ?y] =>
             destruct (Z.compare_spec x y); subst; cbn in *; try congruence; try lia
         | H : context [Z.compare ?x ?y] |- _ =>
             destruct (Z.compare_spec x y); subst; cbn in *; try congruence; try lia
         end;
  repeat match goal with
         | |- context [Pos.compare_cont Eq ?x ?y] =>
             change (Pos.compare_cont Eq x y) with (Pos.compare x y) in *;
             destruct (Pos.compare_spec x y); subst; cbn in *; try congruence; try lia
         | H : context [Pos.compare_cont Eq ?x ?y] |- _ =>
             change (Pos.compare_cont Eq x y) with (Pos.compare x y) in *;
             destruct (Pos.compare_spec x y); subst; cbn in *; try congruence; try lia
         end.

(** Two floats that are not NaN are comparable. *)
Lemma not_gtb_leb (a b : FP.float) :
  is_nan a = false -> is_nan b = false -> FP.gtb a b = false -> FP.leb a b = true.
Proof.
  unfold FP.leb, FP.gtb, SFleb, SFltb, SFcompare.
  destruct a as [sa|sa| |sa ma ea], b as [sb|sb| |sb mb eb]; cbn [is_nan];
    intros Ha Hb H; try discriminate; compare_cases.
Qed.

(** ** Worlds that grow *)

Lemma extends_refl (w : World) : extends w w [].
Proof. unfold extends. rewrite app_nil_r. auto. Qed.

Lemma extends_emit (w w' : World) (evs : list Event) (e : Event) :
  extends w w' evs -> extends w (emit e w') (evs ++ [e]).
Proof.
  unfold extends, emit. cbn. intros [Hc [Hp Ht]].
  rewrite Ht, app_assoc. auto.
Qed.

Lemma extends_trans (w w' w'' : World) (evs evs' : list Event) :
  extends w w' evs -> extends w' w'' evs' -> extends w w'' (evs ++ evs').
Proof.
  unfold extends. intros [Hc [Hp Ht]] [Hc' [Hp' Ht']].
  rewrite Hc', Hp', Ht', Ht, app_assoc. auto.
Qed.

Lemma extends_since (w w' : World) (evs : list Event) :
  extends w w' evs -> since w w' = evs.
Proof. intros [_ [_ Ht]]. apply since_app. exact Ht. Qed.

(** ** Construction, continued *)

Ltac run_checks :=
  unfold new_SB_Servo, checkChannel, checkMaxAngle, checkMinAngle, checkMaxDegreeRange,
    checkMinDegreeRange, checkMaxUS, checkMinUS, check;
  cbn [fst snd errorCode minUS maxUS minDegreeRange maxDegreeRange minAngle maxAngle
       channelNum servoNumber raise set_errorCode];
  repeat match goal with
         | |- context [if ?b then _ else _] =>
             destruct b;
             cbn [fst snd errorCode minUS maxUS minDegreeRange maxDegreeRange minAngle
                  maxAngle channelNum servoNumber raise set_errorCode]
         end.

(** The constructor, taken apart: the unit it builds, the static members
    it leaves, and the events it adds. *)
Lemma new_SB_Servo_shape
    (pulseMin pulseMax : Z) (rangeMin rangeMax angleMin angleMax : FP.float)
    (channel : Z) (w : World) :
  let m := new_SB_Servo pulseMin pulseMax rangeMin rangeMax angleMin angleMax channel w in
  fst m = mkServo (errorCode (fst m)) (CInt.mul 4 pulseMin) (CInt.mul 4 pulseMax)
                  rangeMin rangeMax angleMin angleMax channel (servoCount w) /\
  servoCount (snd m) = CInt.add (servoCount w) 1 /\
  position (snd m) = position w /\
  exists evs,
    trace (snd m) = trace w ++ evs /\
    Forall (debug_of (servoCount w)) evs /\
    gateway_calls evs = [] /\
    (errorCode (fst m) = 0 -> evs = []).
Proof.
  cbv zeta. run_checks;
    (split; [reflexivity|]; split; [reflexivity|]; split; [reflexivity|]);
    unfold printDebug, emit; cbn [trace servoNumber set_errorCode];
    rewrite <- ?app_assoc; cbn [app];
    (eexists; split; [first [reflexivity | symmetry; apply app_nil_r]|]);
    (split; [repeat constructor|]); (split; [reflexivity|]);
    cbn; intros H; first [reflexivity | discriminate H].
Qed.

(** X1.  The seven-argument constructor stores its arguments (the pulse
    bounds fourfold), takes [servoCount] as the unit's number and leaves
    [servoCount] one higher; it never addresses the Maestro: all it emits
    are debug lines under the new unit's number, and none at all when the
    mask comes out 0. *)
Theorem new_SB_Servo_bookkeeping
    (pulseMin pulseMax : Z) (rangeMin rangeMax angleMin angleMax : FP.float)
    (channel : Z) (w : World) :
  let m := new_SB_Servo pulseMin pulseMax rangeMin rangeMax angleMin angleMax channel w in
  let s := fst m in
  let evs := since w (snd m) in
  (minUS s = CInt.mul 4 pulseMin /\ maxUS s = CInt.mul 4 pulseMax /\
   minDegreeRange s = rangeMin /\ maxDegreeRange s = rangeMax /\
   minAngle s = angleMin /\ maxAngle s = angleMax /\ channelNum s = channel) /\
  servoNumber s = servoCount w /\
  servoCount (snd m) = CInt.add (servoCount w) 1 /\
  position (snd m) = position w /\
  trace (snd m) = trace w ++ evs /\
  Forall (debug_of (servoNumber s)) evs /\
  gateway_calls evs = [] /\
  (errorCode s = 0 -> evs = []).
Proof.
  cbv zeta.
  destruct (new_SB_Servo_shape pulseMin pulseMax rangeMin rangeMax angleMin angleMax
              channel w) as [Hs [Hc [Hp [evs [Ht [Hd [Hg Hsilent]]]]]]].
  rewrite (since_app _ _ _ Ht), Hs.
  cbn [minUS maxUS minDegreeRange maxDegreeRange minAngle maxAngle channelNum
       servoNumber errorCode].
  rewrite Hs in Hsilent. cbn [errorCode] in Hsilent.
  repeat split; assumption.
Qed.

Lemma wrap_succ_differs (c : Z) : CInt.add c 1 <> c.
Proof.
  unfold CInt.add, CInt.wrap.
  change (2 ^ 31) with 2147483648. change (2 ^ 32) with 4294967296.
  intros H.
  pose proof (Z.mod_pos_bound (c + 1 + 2147483648) 4294967296 eq_refl) as Hb.
  assert (Hm : (c + 1 + 2147483648) mod 4294967296 = c + 2147483648) by lia.
  pose proof (Z.div_mod (c + 1 + 2147483648) 4294967296 ltac:(lia)) as Hd.
  rewrite Hm in Hd. lia.
Qed.

(** X2.  Two units constructed one right after the other never carry the
    same number, whatever their arguments (the counter wraps, but a step of
    one never lands on the same value). *)
Theorem consecutive_units_differ
    (p1 q1 p2 q2 : Z) (r1 R1 a1 A1 r2 R2 a2 A2 : FP.float) (c1 c2 : Z) (w : World) :
  let m1 := new_SB_Servo p1 q1 r1 R1 a1 A1 c1 w in
  let m2 := new_SB_Servo p2 q2 r2 R2 a2 A2 c2 (snd m1) in
  servoNumber (fst m2) <> servoNumber (fst m1).
Proof.
  cbv zeta.
  destruct (new_SB_Servo_shape p1 q1 r1 R1 a1 A1 c1 w) as [H1 [Hc1 _]].
  destruct (new_SB_Servo_shape p2 q2 r2 R2 a2 A2 c2
              (snd (new_SB_Servo p1 q1 r1 R1 a1 A1 c1 w))) as [H2 _].
  rewrite H2, H1. cbn [servoNumber]. rewrite Hc1. apply wrap_succ_differs.
Qed.

Lemma mask_fold_kept (checks : list (bool * Z)) (e : Z) :
  bits_kept e (fold_left (fun (e : Z) (c : bool * Z) =>
                            if fst c then Z.lor e (snd c) else e) checks e).
Proof.
  revert e. induction checks as [|[t b] checks IH]; intros e; cbn [fold_left fst snd].
  - apply bits_kept_refl.
  - eapply bits_kept_trans; [|apply IH].
    destruct t; [apply bits_kept_lor | apply bits_kept_refl].
Qed.

Lemma mask_fold_has_bit (checks : list (bool * Z)) (e b : Z) :
  In (true, b) checks ->
  has_bit (fold_left (fun (e : Z) (c : bool * Z) =>
                        if fst c then Z.lor e (snd c) else e) checks e) b.
Proof.
  revert e. induction checks as [|[t b'] checks IH]; intros e Hin; [contradiction|].
  cbn [fold_left fst snd]. destruct Hin as [Hin|Hin].
  - injection Hin as -> ->.
    eapply has_bit_kept; [apply has_bit_lor | apply mask_fold_kept].
  - apply IH. exact Hin.
Qed.


(** X3.  Arguments that satisfy every invariant of the data model, with
    pulse bounds whose fourfold fits an [int], give a unit with an empty
    mask, and the constructor prints nothing. *)
Theorem valid_arguments_clean_mask
    (pulseMin pulseMax : Z) (rangeMin rangeMax angleMin angleMax : FP.float)
    (channel : Z) (w : World) :
  CInt.in_range (4 * pulseMin) -> CInt.in_range (4 * pulseMax) ->
  0 <= pulseMin < pulseMax ->
  range_invariant rangeMin rangeMax ->
  angle_invariant rangeMin rangeMax angleMin angleMax ->
  channel_invariant channel ->
  let m := new_SB_Servo pulseMin pulseMax rangeMin rangeMax angleMin angleMax channel w in
  errorCode (fst m) = 0 /\ trace (snd m) = trace w.
Proof.
  intros Hmin Hmax Hord [Hr0 [Hr Hr360]] [Hra [Ha Har]] Hch. cbv zeta.
  assert (He : errorCode (fst (new_SB_Servo pulseMin pulseMax rangeMin rangeMax
                                            angleMin angleMax channel w)) = 0).
  { pose proof (leb_trans _ _ _ Hr0 Hra) as Ha0.
    pose proof (leb_trans _ _ _ Ha0 Ha) as Hb0.
    rewrite new_SB_Servo_errorCode.
    unfold CInt.mul. rewrite (wrap_in_range _ Hmin), (wrap_in_range _ Hmax).
    replace ((channel <? 0) || (channel >=? NUM_MAESTRO_CHANNELS)) with false
      by (unfold channel_invariant in Hch; symmetry; apply orb_false_iff; split;
          [apply Z.ltb_ge | rewrite Z.geb_leb; apply Z.leb_gt]; lia).
    change (FP.ltb angleMax angleMin) with (FP.gtb angleMin angleMax).
    change (FP.ltb angleMin rangeMin) with (FP.gtb rangeMin angleMin).
    change (FP.ltb rangeMax rangeMin) with (FP.gtb rangeMin rangeMax).
    change (FP.ltb angleMax (FP.of_int 0)) with (FP.gtb (FP.of_int 0) angleMax).
    change (FP.ltb angleMin (FP.of_int 0)) with (FP.gtb (FP.of_int 0) angleMin).
    change (FP.ltb rangeMin (FP.of_int 0)) with (FP.gtb (FP.of_int 0) rangeMin).
    rewrite (leb_not_gtb _ _ Hr0), (leb_not_gtb _ _ Hr), (leb_not_gtb _ _ Hr360),
      (leb_not_gtb _ _ Hra), (leb_not_gtb _ _ Ha), (leb_not_gtb _ _ Har),
      (leb_not_gtb _ _ Ha0), (leb_not_gtb _ _ Hb0).
    replace (4 * pulseMin <? 0) with false by (symmetry; apply Z.ltb_ge; lia).
    replace (4 * pulseMin >? 4 * pulseMax) with false
      by (symmetry; rewrite Z.gtb_ltb; apply Z.ltb_ge; lia).
    replace (4 * pulseMax <? 0) with false by (symmetry; apply Z.ltb_ge; lia).
    replace (4 * pulseMax <=? 4 * pulseMin) with false by (symmetry; apply Z.leb_gt; lia).
    reflexivity. }
  split; [exact He|].
  destruct (new_SB_Servo_shape pulseMin pulseMax rangeMin rangeMax angleMin angleMax
              channel w) as [_ [_ [_ [evs [Ht [_ [_ Hsilent]]]]]]].
  rewrite Ht, (Hsilent He). apply app_nil_r.
Qed.

Lemma valid_arguments_clean_mask_witness :
  errorCode (fst (hs422 3)) = 0 /\ trace (snd (hs422 3)) = trace (quiet 6000).
Proof.
  apply (valid_arguments_clean_mask 500 2500 (FP.of_int 0) (FP.of_int 180)
           (FP.of_int 0) (FP.of_int 180) 3 (quiet 6000)).
  - vm_compute. split; discriminate.
  - vm_compute. split; discriminate.
  - lia.
  - repeat split; reflexivity.
  - repeat split; reflexivity.
  - unfold channel_invariant, NUM_MAESTRO_CHANNELS. lia.
Defined.



(** X5.  The mask the constructor leaves, bit by bit: each of the four
    validation bits is set exactly when one of the checks that guard it
    fired (so an angle window starting below the rated range sets the angle
    bit, whatever else is wrong), and the two rotate bits are clear. *)
Theorem constructor_mask_exact
    (pulseMin pulseMax : Z) (rangeMin rangeMax angleMin angleMax : FP.float)
    (channel : Z) (w : World) :
  let e := errorCode (fst (new_SB_Servo pulseMin pulseMax rangeMin rangeMax
                                        angleMin angleMax channel w)) in
  let lo := CInt.mul 4 pulseMin in
  let hi := CInt.mul 4 pulseMax in
  (has_bit e US_ERROR_BIT <->
     ((lo <? 0) || (lo >? hi)) || ((hi <? 0) || (hi <=? lo)) = true) /\
  (has_bit e RANGE_ERROR_BIT <->
     (FP.ltb rangeMin (FP.of_int 0) || FP.gtb rangeMin rangeMax)
     || (FP.gtb rangeMax (FP.of_int 360) || FP.ltb rangeMax rangeMin) = true) /\
  (has_bit e ANGLE_ERROR_BIT <->
     (FP.ltb angleMin (FP.of_int 0) || FP.gtb angleMin angleMax || FP.ltb angleMin rangeMin)
     || (FP.ltb angleMax (FP.of_int 0) || FP.ltb angleMax angleMin
         || FP.gtb angleMax rangeMax) = true) /\
  (has_bit e CHANNEL_ERROR_BIT <->
     (channel <? 0) || (channel >=? NUM_MAESTRO_CHANNELS) = true) /\
  Z.land e (Z.lor ROTATE_TO_UNDER_ERROR_BIT ROTATE_TO_OVER_ERROR_BIT) = 0.
Proof.
  cbv zeta. rewrite new_SB_Servo_errorCode.
  destruct ((CInt.mul 4 pulseMin <? 0) || (CInt.mul 4 pulseMin >? CInt.mul 4 pulseMax));
    destruct ((CInt.mul 4 pulseMax <? 0) || (CInt.mul 4 pulseMax <=? CInt.mul 4 pulseMin));
    destruct (FP.ltb rangeMin (FP.of_int 0) || FP.gtb rangeMin rangeMax);
    destruct (FP.gtb rangeMax (FP.of_int 360) || FP.ltb rangeMax rangeMin);
    destruct (FP.ltb angleMin (FP.of_int 0) || FP.gtb angleMin angleMax
              || FP.ltb angleMin rangeMin);
    destruct (FP.ltb angleMax (FP.of_int 0) || FP.ltb angleMax angleMin
              || FP.gtb angleMax rangeMax);
    destruct ((channel <? 0) || (channel >=? NUM_MAESTRO_CHANNELS));
    unfold has_bit; vm_compute; repeat split; intros; congruence.
Qed.

(** X6.  A unit constructed on a channel outside [0, NUM_MAESTRO_CHANNELS)
    answers -1 to [getCurrentDegrees] without addressing the Maestro, as
    long as its mask has not been cleared in between. *)
Theorem off_board_unit_reads_minus_one
    (pulseMin pulseMax : Z) (rangeMin rangeMax angleMin angleMax : FP.float)
    (channel : Z) (w : World) :
  channel < 0 \/ NUM_MAESTRO_CHANNELS <= channel ->
  let m := new_SB_Servo pulseMin pulseMax rangeMin rangeMax angleMin angleMax channel w in
  fst (getCurrentDegrees m) = FP.of_int (-1) /\
  gateway_calls (since (snd m) (snd (snd (getCurrentDegrees m)))) = [].
Proof.
  intros Hch. cbv zeta.
  assert (Hbit : has_bit (errorCode (fst (new_SB_Servo pulseMin pulseMax rangeMin rangeMax
                                                       angleMin angleMax channel w)))
                         CHANNEL_ERROR_BIT).
  { rewrite new_SB_Servo_errorCode. unfold mask_of. apply mask_fold_has_bit.
    replace ((channel <? 0) || (channel >=? NUM_MAESTRO_CHANNELS)) with true
      by (symmetry; apply orb_true_iff;
          destruct Hch; [left; apply Z.ltb_lt | right; apply Z.geb_le]; lia).
    do 6 right. left. reflexivity. }
  destruct (new_SB_Servo _ _ _ _ _ _ _ _) as [s w'].
  apply getCurrentDegrees_masked. exact Hbit.
Qed.

Lemma off_board_unit_reads_minus_one_witness :
  fst (getCurrentDegrees off_board) = FP.of_int (-1) /\
  gateway_calls (since (snd off_board) (snd (snd (getCurrentDegrees off_board)))) = [].
Proof.
  apply (off_board_unit_reads_minus_one 500 2500 (FP.of_int 0) (FP.of_int 180)
           (FP.of_int 0) (FP.of_int 180) 9 (mkWorld 0 (fun _ => 6000) [])).
  right. vm_compute. discriminate.
Defined.

(** X7.  NaN slips through: the checks are comparisons, and a comparison
    with a NaN is false, so a unit whose rated range and angle window are
    all NaN gets neither the range bit nor the angle bit. *)
Theorem nan_calibration_unflagged (pulseMin pulseMax channel : Z) (w : World) :
  let e := errorCode (fst (new_SB_Servo pulseMin pulseMax S754_nan S754_nan
                                        S754_nan S754_nan channel w)) in
  ~ has_bit e RANGE_ERROR_BIT /\ ~ has_bit e ANGLE_ERROR_BIT.
Proof.
  cbv zeta. rewrite new_SB_Servo_errorCode.
  destruct ((CInt.mul 4 pulseMin <? 0) || (CInt.mul 4 pulseMin >? CInt.mul 4 pulseMax));
    destruct ((CInt.mul 4 pulseMax <? 0) || (CInt.mul 4 pulseMax <=? CInt.mul 4 pulseMin));
    destruct ((channel <? 0) || (channel >=? NUM_MAESTRO_CHANNELS));
    unfold has_bit; vm_compute; split; discriminate.
Qed.

(** X8.  The one-argument constructor builds the HS-422 calibration
    (stored pulses 2000..10000, range and window 0..180) on any channel; its
    mask is the channel bit when the channel is off the board and 0
    otherwise. *)
Theorem default_unit (channel : Z) (w : World) :
  let s := fst (new_SB_Servo1 channel w) in
  minUS s = 2000 /\ maxUS s = 10000 /\
  minDegreeRange s = FP.of_int 0 /\ maxDegreeRange s = FP.of_int 180 /\
  minAngle s = FP.of_int 0 /\ maxAngle s = FP.of_int 180 /\
  channelNum s = channel /\
  errorCode s = if (channel <? 0) || (channel >=? NUM_MAESTRO_CHANNELS)
                then CHANNEL_ERROR_BIT else 0.
Proof.
  cbv zeta. unfold new_SB_Servo1, new_SB_Servo3.
  rewrite new_SB_Servo_errorCode.
  destruct (new_SB_Servo_shape DEFAULT_MIN_US DEFAULT_MAX_US
              (FP.of_int DEFAULT_MIN_ANGLE) (FP.of_int DEFAULT_MAX_ANGLE)
              (FP.of_int DEFAULT_MIN_ANGLE) (FP.of_int DEFAULT_MAX_ANGLE)
              channel w) as [Hs _].
  rewrite Hs. cbn [minUS maxUS minDegreeRange maxDegreeRange minAngle maxAngle channelNum].
  repeat (split; [reflexivity|]).
  destruct ((channel <? 0) || (channel >=? NUM_MAESTRO_CHANNELS)); reflexivity.
Qed.

(** ** Single-servo motion, continued *)

Lemma mask_ok_lor (e b : Z) : mask_ok e -> Z.land b KNOWN_BITS = b -> mask_ok (Z.lor e b).
Proof.
  unfold mask_ok. intros He Hb. rewrite Z.land_lor_distr_l, He, Hb. reflexivity.
Qed.

Lemma on_board (c : Z) :
  (c <? 0) || (c >=? NUM_MAESTRO_CHANNELS) = false -> 0 <= c < NUM_MAESTRO_CHANNELS.
Proof.
  intros H. apply orb_false_iff in H. destruct H as [H1 H2].
  apply Z.ltb_ge in H1. rewrite Z.geb_leb in H2. apply Z.leb_gt in H2. lia.
Qed.

(** What a call of [rotateToDegrees] can change and cause: the mask, within
    the known bits, and events of the unit's own. *)
Lemma rotateToDegrees_shape (a : FP.float) (s : SB_Servo) (w : World) :
  let m' := rotateToDegrees a (s, w) in
  fst m' = set_errorCode s (errorCode (fst m')) /\
  (mask_ok (errorCode s) -> mask_ok (errorCode (fst m'))) /\
  exists evs, extends w (snd m') evs /\ Forall (own_event s) evs.
Proof.
  cbv zeta. destruct s as [e lo hi rlo rhi alo ahi ch n].
  unfold rotateToDegrees, clamp, checkChannel, check.
  cbn [fst snd errorCode minUS maxUS minDegreeRange maxDegreeRange minAngle maxAngle
       channelNum servoNumber raise set_errorCode].
  destruct (FP.gtb a ahi); [|destruct (FP.ltb a alo)];
    cbn [fst snd errorCode channelNum servoNumber raise set_errorCode];
    (destruct ((ch <? 0) || (ch >=? NUM_MAESTRO_CHANNELS)) eqn:Hch;
     cbn [fst snd errorCode channelNum servoNumber raise set_errorCode];
     [rewrite channel_test_raised | destruct (Z.land _ CHANNEL_ERROR_BIT =? 0)];
     cbn [negb fst snd errorCode channelNum servoNumber raise set_errorCode];
     (split; [reflexivity|]);
     (split; [intros Hok; repeat (apply mask_ok_lor; [|reflexivity]); exact Hok|]);
     unfold printDebug;
     cbn [servoNumber channelNum set_errorCode];
     (eexists; split; [repeat apply extends_emit; apply extends_refl|]);
     cbn [app]; repeat constructor; cbn [own_event channelNum servoNumber];
     try reflexivity; try (apply on_board; exact Hch)).
Qed.

(** X9.  On a unit whose window is in order ([minAngle <= maxAngle]) a
    request that is not a NaN is always converted from an angle inside the
    window: what [rotateToDegrees] sends is [setTarget] of [degToUS] of an
    angle between [minAngle] and [maxAngle], or nothing. *)
Theorem rotateToDegrees_stays_in_window (s : SB_Servo) (w : World) (a : FP.float) :
  FP.leb (minAngle s) (maxAngle s) = true -> is_nan a = false ->
  let d := fst (clamp a (s, w)) in
  FP.leb (minAngle s) d = true /\ FP.leb d (maxAngle s) = true /\
  gateway_calls (since w (snd (rotateToDegrees a (s, w)))) =
    (if channel_blocked s then [] else [SetTarget (channelNum s) (degToUS s d)]).
Proof.
  intros Hwin Ha. cbv zeta.
  assert (Hmin : is_nan (minAngle s) = false)
    by (destruct (minAngle s); try reflexivity; discriminate Hwin).
  assert (Hmax : is_nan (maxAngle s) = false)
    by (destruct (minAngle s), (maxAngle s); try reflexivity; discriminate Hwin).
  split; [|split; [|apply rotateToDegrees_calls]]; unfold clamp;
    destruct (FP.gtb a (maxAngle s)) eqn:Hover;
    [|destruct (FP.ltb a (minAngle s)) eqn:Hunder| |destruct (FP.ltb a (minAngle s)) eqn:Hunder];
    cbn [fst].
  - exact Hwin.
  - apply not_gtb_leb; auto. apply ltb_irrefl.
  - apply not_gtb_leb; auto.
  - apply not_gtb_leb; auto. apply ltb_irrefl.
  - exact Hwin.
  - apply not_gtb_leb; auto.
Qed.

Lemma rotateToDegrees_stays_in_window_witness :
  let s := fst (hs422 0) in
  let w := snd (hs422 0) in
  let d := fst (clamp (FP.of_int 200) (s, w)) in
  FP.leb (minAngle s) d = true /\ FP.leb d (maxAngle s) = true /\
  gateway_calls (since w (snd (rotateToDegrees (FP.of_int 200) (s, w)))) =
    (if channel_blocked s then [] else [SetTarget (channelNum s) (degToUS s d)]).
Proof.
  apply (rotateToDegrees_stays_in_window (fst (hs422 0)) (snd (hs422 0)) (FP.of_int 200));
    reflexivity.
Defined.

(** X10.  A request inside the window, on a unit whose channel is on the
    board and whose mask has no channel bit, causes exactly one event, the
    [setTarget] of the converted angle, and leaves the unit as it was. *)
Theorem rotateToDegrees_in_window (s : SB_Servo) (w : World) (a : FP.float) :
  FP.gtb a (maxAngle s) = false -> FP.ltb a (minAngle s) = false ->
  channel_blocked s = false ->
  rotateToDegrees a (s, w) = (s, emit (SetTarget (channelNum s) (degToUS s a)) w).
Proof.
  intros Hover Hunder Hblocked.
  unfold channel_blocked in Hblocked.
  apply orb_false_iff in Hblocked. destruct Hblocked as [Hblocked Hge].
  apply orb_false_iff in Hblocked. destruct Hblocked as [Hbit Hlt].
  unfold rotateToDegrees. rewrite (clamp_inside a s w Hover Hunder).
  unfold checkChannel, check. cbn [fst]. rewrite Hlt, Hge. cbn [orb].
  rewrite Hbit. reflexivity.
Qed.

Lemma rotateToDegrees_in_window_witness :
  rotateToDegrees (FP.of_int 90) (hs422 0) =
  (fst (hs422 0), emit (SetTarget 0 6000) (snd (hs422 0))).
Proof.
  apply (rotateToDegrees_in_window (fst (hs422 0)) (snd (hs422 0)) (FP.of_int 90));
    reflexivity.
Defined.

Lemma clamp_angle_calibration (a : FP.float) (s : SB_Servo) (e : Z) (w w' : World) :
  fst (clamp a (set_errorCode s e, w')) = fst (clamp a (s, w)).
Proof.
  unfold clamp. cbn [maxAngle minAngle set_errorCode].
  destruct (FP.gtb a (maxAngle s)); [|destruct (FP.ltb a (minAngle s))]; reflexivity.
Qed.

(** The bits a request adds depend on the request and the calibration
    only: one for the clamp (none, under or over), one for the channel
    (none or the channel bit). *)
Lemma rotateToDegrees_bits (a : FP.float) (s : SB_Servo) :
  exists b1 b2 : Z,
    Z.land b1 CHANNEL_ERROR_BIT = 0 /\
    b2 = (if (channelNum s <? 0) || (channelNum s >=? NUM_MAESTRO_CHANNELS)
          then CHANNEL_ERROR_BIT else 0) /\
    forall (e : Z) (w : World),
      errorCode (fst (rotateToDegrees a (set_errorCode s e, w))) = Z.lor (Z.lor e b1) b2.
Proof.
  exists (if FP.gtb a (maxAngle s) then ROTATE_TO_OVER_ERROR_BIT
          else if FP.ltb a (minAngle s) then ROTATE_TO_UNDER_ERROR_BIT else 0).
  eexists. split; [|split; [reflexivity|]].
  - destruct (FP.gtb a (maxAngle s)); [|destruct (FP.ltb a (minAngle s))]; reflexivity.
  - intros e w. rewrite rotateToDegrees_errorCode.
    unfold checkChannel. rewrite check_errorCode. unfold clamp.
    cbn [maxAngle minAngle set_errorCode].
    destruct (FP.gtb a (maxAngle s)); [|destruct (FP.ltb a (minAngle s))];
      cbn [fst snd channelNum errorCode raise set_errorCode];
      destruct ((channelNum s <? 0) || (channelNum s >=? NUM_MAESTRO_CHANNELS));
      rewrite ?Z.lor_0_r; reflexivity.
Qed.

Lemma lor_twice (e b1 b2 : Z) :
  Z.lor (Z.lor (Z.lor (Z.lor e b1) b2) b1) b2 = Z.lor (Z.lor e b1) b2.
Proof.
  apply Z.bits_inj'. intros n _. rewrite !Z.lor_spec.
  destruct (Z.testbit e n), (Z.testbit b1 n), (Z.testbit b2 n); reflexivity.
Qed.

Lemma set_errorCode_self (s : SB_Servo) : set_errorCode s (errorCode s) = s.
Proof. destruct s; reflexivity. Qed.

(** X11.  Asking twice is asking once: a second identical
    [rotateToDegrees] sends the Maestro the same as the first and leaves
    the mask the first one left. *)
Theorem rotateToDegrees_repeat (s : SB_Servo) (w : World) (a : FP.float) :
  let m1 := rotateToDegrees a (s, w) in
  let m2 := rotateToDegrees a m1 in
  errorCode (fst m2) = errorCode (fst m1) /\
  gateway_calls (since (snd m1) (snd m2)) = gateway_calls (since w (snd m1)).
Proof.
  cbv zeta.
  destruct (rotateToDegrees_bits a s) as [b1 [b2 [Hb1 [Hb2 Hmask]]]].
  destruct (rotateToDegrees_shape a s w) as [Hs _]. cbv zeta in Hs.
  pose proof (Hmask (errorCode s) w) as He1. rewrite set_errorCode_self in He1.
  pose proof (rotateToDegrees_calls a s w) as Hc1.
  destruct (rotateToDegrees a (s, w)) as [s1 w1]. cbn [fst snd] in *.
  remember (errorCode s1) as e1 eqn:Ee1. subst s1. clear Ee1.
  split.
  - rewrite Hmask, He1. apply lor_twice.
  - rewrite rotateToDegrees_calls, Hc1.
    rewrite (clamp_angle_calibration a s e1 w w1). cbn [channelNum set_errorCode].
    change (degToUS (set_errorCode s e1)) with (degToUS s).
    replace (channel_blocked (set_errorCode s e1)) with (channel_blocked s); [reflexivity|].
    unfold channel_blocked. cbn [errorCode channelNum set_errorCode].
    rewrite He1, Hb2.
    destruct ((channelNum s <? 0) || (channelNum s >=? NUM_MAESTRO_CHANNELS)) eqn:Hch.
    + rewrite <- !orb_assoc, Hch, !orb_true_r. reflexivity.
    + rewrite Z.lor_0_r, (channel_test_lor _ _ Hb1). reflexivity.
Qed.

(** ** Any sequence of calls *)

Lemma own_event_set_errorCode (s : SB_Servo) (e : Z) (ev : Event) :
  own_event (set_errorCode s e) ev <-> own_event s ev.
Proof. destruct ev; reflexivity. Qed.

Lemma getCurrentDegrees_shape (s : SB_Servo) (w : World) :
  let m' := snd (getCurrentDegrees (s, w)) in
  fst m' = s /\
  exists evs, extends w (snd m') evs /\ Forall (own_event s) evs.
Proof.
  cbv zeta. unfold getCurrentDegrees, printDebug.
  destruct (negb _); cbn [fst snd]; (split; [reflexivity|]);
    (eexists; split; [apply extends_emit, extends_refl|]);
    repeat constructor.
Qed.

(** One call: the calibration stays, the mask stays within the known
    bits, the static members stay, and the events are the unit's own. *)
Lemma call_shape (c : Call) (s : SB_Servo) (w : World) :
  let m' := call c (s, w) in
  fst m' = set_errorCode s (errorCode (fst m')) /\
  (mask_ok (errorCode s) -> mask_ok (errorCode (fst m'))) /\
  exists evs, extends w (snd m') evs /\ Forall (own_event s) evs.
Proof.
  cbv zeta. destruct c as [a|d| | |]; cbn [call].
  - apply rotateToDegrees_shape.
  - unfold rotateBy.
    destruct (getCurrentDegrees_shape s w) as [Hs [evs1 [Hx1 Ho1]]]. cbv zeta in *.
    destruct (getCurrentDegrees (s, w)) as [cur [s1 w1]]. cbn [fst snd] in *. subst s1.
    match goal with
    | |- context [rotateToDegrees ?a (s, w1)] =>
        destruct (rotateToDegrees_shape a s w1) as [Hs2 [Hm2 [evs2 [Hx2 Ho2]]]]
    end.
    cbv zeta in *. split; [exact Hs2|]. split; [exact Hm2|].
    exists (evs1 ++ evs2). split; [eapply extends_trans; eassumption|].
    apply Forall_app. split; assumption.
  - destruct (getCurrentDegrees_shape s w) as [Hs [evs [Hx Ho]]]. cbv zeta in *.
    rewrite Hs. split; [symmetry; apply set_errorCode_self|]. split; [auto|].
    exists evs. split; assumption.
  - cbn [getErrorCode fst snd]. split; [symmetry; apply set_errorCode_self|].
    split; [auto|]. exists []. split; [apply extends_refl | constructor].
  - cbn [clearErrorCode fst snd errorCode set_errorCode].
    split; [reflexivity|]. split; [reflexivity|].
    exists []. split; [apply extends_refl | constructor].
Qed.

Lemma calls_shape (cs : list Call) (s : SB_Servo) (w : World) :
  let m' := calls cs (s, w) in
  fst m' = set_errorCode s (errorCode (fst m')) /\
  (mask_ok (errorCode s) -> mask_ok (errorCode (fst m'))) /\
  exists evs, extends w (snd m') evs /\ Forall (own_event s) evs.
Proof.
  cbv zeta. revert s w. induction cs as [|c cs IH]; intros s w.
  - cbn. split; [symmetry; apply set_errorCode_self|]. split; [auto|].
    exists []. split; [apply extends_refl | constructor].
  - unfold calls. cbn [fold_left]. fold (calls cs (call c (s, w))).
    destruct (call_shape c s w) as [Hs1 [Hm1 [evs1 [Hx1 Ho1]]]]. cbv zeta in *.
    destruct (call c (s, w)) as [s1 w1]. cbn [fst snd] in *.
    destruct (IH s1 w1) as [Hs2 [Hm2 [evs2 [Hx2 Ho2]]]].
    split; [|split].
    + rewrite Hs2 at 1. rewrite Hs1. reflexivity.
    + auto.
    + exists (evs1 ++ evs2). split; [eapply extends_trans; eassumption|].
      apply Forall_app. split; [assumption|].
      rewrite Hs1 in Ho2. eapply Forall_impl; [|exact Ho2].
      intros ev. apply own_event_set_errorCode.
Qed.

(** X12.  No sequence of [rotateToDegrees], [rotateBy],
    [getCurrentDegrees], [getErrorCode] and [clearErrorCode] changes what
    the constructor stored: the unit afterwards differs from the unit
    before in its mask at most, [servoCount] is what it was, and the trace
    has only grown. *)
Theorem calls_keep_calibration (cs : list Call) (s : SB_Servo) (w : World) :
  let m' := calls cs (s, w) in
  fst m' = set_errorCode s (errorCode (fst m')) /\
  servoCount (snd m') = servoCount w /\
  position (snd m') = position w /\
  trace (snd m') = trace w ++ since w (snd m').
Proof.
  cbv zeta. destruct (calls_shape cs s w) as [Hs [_ [evs [Hx _]]]]. cbv zeta in *.
  split; [exact Hs|]. rewrite (extends_since _ _ _ Hx).
  destruct Hx as [Hc [Hp Ht]]. auto.
Qed.

(** X13.  Whatever the sequence of calls, every [setTarget] the unit
    causes is on its own channel and that channel is on the board, every
    [getPosition] is on its own channel, and no [setMultiTarget] is caused;
    so a unit whose channel is off the board never causes a [setTarget], with
    or without [clearErrorCode] in between. *)
Theorem calls_address_own_channel (cs : list Call) (s : SB_Servo) (w : World) :
  let evs := since w (snd (calls cs (s, w))) in
  Forall (own_event s) evs /\
  ((channelNum s <? 0) || (channelNum s >=? NUM_MAESTRO_CHANNELS) = true ->
   filter is_setTarget evs = []).
Proof.
  cbv zeta. destruct (calls_shape cs s w) as [_ [_ [evs [Hx Ho]]]]. cbv zeta in *.
  rewrite (extends_since _ _ _ Hx). split; [exact Ho|].
  intros Hch. clear Hx. induction Ho as [|ev evs Hev Ho IH]; [reflexivity|].
  cbn [filter]. destruct ev as [c t|c|k f ts|k msg]; cbn [is_setTarget]; try exact IH.
  cbn [own_event] in Hev. destruct Hev as [-> Hin].
  apply orb_true_iff in Hch.
  destruct Hch as [Hch|Hch]; [apply Z.ltb_lt in Hch | apply Z.geb_le in Hch]; lia.
Qed.

Lemma calls_address_own_channel_witness :
  let cs := [CallClearErrorCode; CallRotateBy (FP.of_int 10);
             CallClearErrorCode; CallRotateToDegrees (FP.of_int 90)] in
  let evs := since (snd off_board) (snd (calls cs off_board)) in
  Forall (own_event (fst off_board)) evs /\ filter is_setTarget evs = [].
Proof.
  cbv zeta.
  pose proof (calls_address_own_channel
                [CallClearErrorCode; CallRotateBy (FP.of_int 10);
                 CallClearErrorCode; CallRotateToDegrees (FP.of_int 90)]
                (fst off_board) (snd off_board)) as H.
  cbv zeta in H. destruct H as [H1 H2]. split; [exact H1|].
  apply H2. reflexivity.
Defined.

Lemma mask_ok_fold (checks : list (bool * Z)) (e : Z) :
  mask_ok e -> Forall (fun c => Z.land (snd c) KNOWN_BITS = snd c) checks ->
  mask_ok (fold_left (fun (e : Z) (c : bool * Z) =>
                        if fst c then Z.lor e (snd c) else e) checks e).
Proof.
  intros He Hall. revert e He.
  induction Hall as [|[t b] checks Hb Hall IH]; intros e He; cbn [fold_left fst snd].
  - exact He.
  - apply IH. destruct t; [apply mask_ok_lor; assumption | exact He].
Qed.

Lemma mask_ok_range (e : Z) : mask_ok e -> 0 <= e < 64.
Proof.
  unfold mask_ok, KNOWN_BITS. intros H. rewrite <- H. split.
  - apply Z.land_nonneg. right. lia.
  - assert (Hlo : 0 <= Z.land e 63) by (apply Z.land_nonneg; right; lia).
    destruct (Z.le_gt_cases 64 (Z.land e 63)) as [Hge|Hlt]; [|exact Hlt].
    assert (Hbit : Z.land (Z.land e 63) 63 = Z.land e 63)
      by (rewrite <- Z.land_assoc; reflexivity).
    assert (Hsh : Z.shiftr (Z.land e 63) 6 = 0).
    { rewrite Z.shiftr_land. change (Z.shiftr 63 6) with 0. apply Z.land_0_r. }
    rewrite Z.shiftr_div_pow2 in Hsh by lia.
    change (2 ^ 6) with 64 in Hsh.
    apply Z.div_small_iff in Hsh; lia.
Qed.

(** X14.  From construction on, through any sequence of calls,
    [getErrorCode] returns a value made of the six bits of the header: it
    lies between 0 and 63. *)
Theorem errorCode_within_known_bits
    (pulseMin pulseMax : Z) (rangeMin rangeMax angleMin angleMax : FP.float)
    (channel : Z) (w : World) (cs : list Call) :
  let m := calls cs (new_SB_Servo pulseMin pulseMax rangeMin rangeMax angleMin angleMax
                                  channel w) in
  mask_ok (fst (getErrorCode m)) /\ 0 <= fst (getErrorCode m) < 64.
Proof.
  cbv zeta. cbn [getErrorCode fst].
  assert (H0 : mask_ok (errorCode (fst (new_SB_Servo pulseMin pulseMax rangeMin rangeMax
                                                     angleMin angleMax channel w)))).
  { rewrite new_SB_Servo_errorCode. unfold mask_of.
    apply mask_ok_fold; [reflexivity | repeat constructor]. }
  destruct (new_SB_Servo _ _ _ _ _ _ _ _) as [s w1]. cbn [fst] in H0.
  destruct (calls_shape cs s w1) as [_ [Hm _]]. cbv zeta in Hm.
  split; [|apply mask_ok_range]; auto.
Qed.

(** ** [rotateBy] *)

Lemma since_trans (w w1 w2 : World) (evs1 evs2 : list Event) :
  extends w w1 evs1 -> extends w1 w2 evs2 -> since w w2 = since w w1 ++ since w1 w2.
Proof.
  intros H1 H2.
  rewrite (extends_since _ _ _ H1), (extends_since _ _ _ H2).
  apply extends_since. eapply extends_trans; eassumption.
Qed.

Lemma has_bit_channel_blocked (s : SB_Servo) :
  has_bit (errorCode s) CHANNEL_ERROR_BIT -> channel_blocked s = true.
Proof. unfold has_bit, channel_blocked. intros ->. reflexivity. Qed.

(** X15.  While the channel bit is in the mask, [rotateBy] does not touch
    the Maestro at all: it neither reads the position nor sets a target. *)
Theorem rotateBy_masked (s : SB_Servo) (w : World) (d : FP.float) :
  has_bit (errorCode s) CHANNEL_ERROR_BIT ->
  gateway_calls (since w (snd (rotateBy d (s, w)))) = [].
Proof.
  intros Hbit. unfold rotateBy.
  destruct (getCurrentDegrees_masked s w Hbit) as [_ Hread].
  destruct (getCurrentDegrees_shape s w) as [Hs [evs1 [Hx1 _]]]. cbv zeta in *.
  destruct (getCurrentDegrees (s, w)) as [cur [s1 w1]]. cbn [fst snd] in *. subst s1.
  match goal with
  | |- context [rotateToDegrees ?a (s, w1)] =>
      destruct (rotateToDegrees_shape a s w1) as [_ [_ [evs2 [Hx2 _]]]];
      pose proof (rotateToDegrees_calls a s w1) as Hcmd
  end.
  cbv zeta in *. rewrite (has_bit_channel_blocked s Hbit) in Hcmd.
  rewrite (since_trans _ _ _ _ _ Hx1 Hx2).
  unfold gateway_calls in *. rewrite filter_app, Hread, Hcmd. reflexivity.
Qed.

Lemma rotateBy_masked_witness :
  gateway_calls (since (snd off_board) (snd (rotateBy (FP.of_int 10) off_board))) = [].
Proof.
  apply (rotateBy_masked (fst off_board) (snd off_board) (FP.of_int 10)). reflexivity.
Defined.

(** X16.  On a unit whose channel is not blocked, [rotateBy] makes exactly
    two Maestro calls, in this order: one [getPosition] on the unit's
    channel, then one [setTarget] on it, for the clamped sum of [degreesBy]
    and the reading converted to degrees and rounded (half added, then
    truncated). *)
Theorem rotateBy_reads_then_commands (s : SB_Servo) (w : World) (d : FP.float) :
  channel_blocked s = false ->
  let reading := usToDegrees s (CInt.to_uint16 (position w (channelNum s))) in
  let currentDeg := FP.to_int (FP.dadd (FP.to_double reading) FP.dhalf) in
  let desiredAngle := FP.add (FP.of_int currentDeg) d in
  gateway_calls (since w (snd (rotateBy d (s, w)))) =
  [GetPosition (channelNum s);
   SetTarget (channelNum s) (degToUS s (fst (clamp desiredAngle (s, w))))].
Proof.
  intros Hfree. cbv zeta.
  assert (Hbit : negb (Z.land (errorCode s) CHANNEL_ERROR_BIT =? 0) = false).
  { unfold channel_blocked in Hfree. apply orb_false_iff in Hfree.
    destruct Hfree as [Hfree _]. apply orb_false_iff in Hfree. tauto. }
  unfold rotateBy, getCurrentDegrees. rewrite Hbit.
  match goal with
  | |- context [rotateToDegrees ?a (s, ?w1)] =>
      destruct (rotateToDegrees_shape a s w1) as [_ [_ [evs2 [Hx2 _]]]];
      pose proof (rotateToDegrees_calls a s w1) as Hcmd
  end.
  cbv zeta in *. rewrite Hfree in Hcmd.
  rewrite (since_trans w _ _ [GetPosition (channelNum s)] evs2
             (extends_emit _ _ _ _ (extends_refl w)) Hx2).
  unfold gateway_calls in *. rewrite filter_app, Hcmd, since_emit.
  cbn [filter is_gateway app]. unfold clamp.
  destruct (FP.gtb _ (maxAngle s)); [|destruct (FP.ltb _ (minAngle s))]; reflexivity.
Qed.

Lemma rotateBy_reads_then_commands_witness :
  gateway_calls (since (snd (hs422 0)) (snd (rotateBy (FP.of_int 10) (hs422 0)))) =
  [GetPosition 0; SetTarget 0 6444].
Proof.
  apply (rotateBy_reads_then_commands (fst (hs422 0)) (snd (hs422 0)) (FP.of_int 10)).
  reflexivity.
Defined.

(** ** Fleet dispatch, continued *)

Lemma skipn_cons_nth {A : Type} (l : list A) (j : nat) (a : A) :
  nth_error l j = Some a -> skipn j l = a :: skipn (S j) l.
Proof.
  revert l. induction j as [|j IH]; intros [|h t] H; cbn in H; try discriminate.
  - injection H as ->. reflexivity.
  - cbn [skipn]. rewrite (IH t H). reflexivity.
Qed.

Lemma nth_error_combine {A B : Type} (l : list A) (l' : list B) (n : nat) (a : A) (b : B) :
  nth_error l n = Some a -> nth_error l' n = Some b ->
  nth_error (combine l l') n = Some (a, b).
Proof.
  revert l l'. induction n as [|n IH]; intros [|h t] [|h' t'] Ha Hb;
    cbn in *; try discriminate.
  - congruence.
  - apply IH; assumption.
Qed.

(** The scan, read as a recursion on the vector: started at unit [j] it
    prints [breaks] of the units from [j] on. *)
Lemma contiguity_scan_breaks (servos : list SB_Servo) :
  1 <= size servos -> size servos <= CInt.INT_MAX ->
  forall (fuel j : nat) (w : World),
    Z.of_nat j <= size servos - 1 ->
    size servos - 1 - Z.of_nat j < Z.of_nat fuel ->
    contiguity_scan fuel servos (CInt.wrap (Z.of_nat j)) w =
      Done (mkWorld (servoCount w) (position w) (trace w ++ breaks (skipn j servos))).
Proof.
  intros Hlen Hmax.
  assert (HB : CInt.to_size_t (size servos - 1) = size servos - 1).
  { unfold CInt.to_size_t. apply Z.mod_small.
    unfold CInt.INT_MAX in Hmax. change (2 ^ 31) with 2147483648 in Hmax.
    change (2 ^ 32) with 4294967296. lia. }
  assert (H32 : size servos - 1 < 2 ^ 32).
  { unfold CInt.INT_MAX in Hmax. change (2 ^ 31) with 2147483648 in Hmax.
    change (2 ^ 32) with 4294967296. lia. }
  induction fuel as [|fuel IH]; intros j w Hj Hfuel; [lia|].
  cbn [contiguity_scan]. rewrite HB.
  rewrite to_size_t_wrap, Z.mod_small by lia.
  destruct (Z.ltb_spec (Z.of_nat j) (size servos - 1)) as [Hlt|Hge].
  - rewrite add_wrap, to_size_t_wrap, Z.mod_small by lia.
    replace (Z.of_nat j + 1) with (Z.of_nat (S j)) by lia.
    rewrite !at_index_of_nat.
    destruct (nth_error_inside servos j) as [a Ea]; [lia|].
    destruct (nth_error_inside servos (S j)) as [b Eb]; [lia|].
    rewrite Ea, Eb, (IH (S j)) by lia.
    rewrite (skipn_cons_nth servos j a Ea), (skipn_cons_nth servos (S j) b Eb).
    cbn [breaks].
    destruct (negb (CInt.add (channelNum a) 1 =? channelNum b));
      unfold printDebug, emit; cbn [servoCount position trace];
      rewrite <- ?app_assoc; reflexivity.
  - assert (Hj' : Z.of_nat j = size servos - 1) by lia.
    destruct (nth_error_inside servos j) as [a Ea]; [lia|].
    rewrite (skipn_cons_nth servos j a Ea).
    rewrite (skipn_all2 servos (n := S j)) by (unfold size in *; lia).
    cbn [breaks]. rewrite app_nil_r. destruct w; reflexivity.
Qed.

(** The fill loop, read as a map over the paired vectors. *)
Lemma fill_targets_expected (servos : list SB_Servo) (degrees : list FP.float) :
  size degrees <= size servos -> size degrees <= NUM_MAESTRO_CHANNELS ->
  fill_targets (S (List.length degrees)) servos degrees 0 fresh_targets =
    Done (expected_targets servos degrees).
Proof.
  intros Hsv Hmax.
  destruct (fill_targets_done servos degrees Hsv Hmax (S (List.length degrees)) 0
              fresh_targets) as [t [Hrun [Hlen [Hwritten Hrest]]]].
  { pose proof (size_nonneg degrees). cbn. lia. }
  { unfold size. lia. }
  { apply size_fresh_targets. }
  change (Z.of_nat 0) with 0 in Hrun. rewrite Hrun. f_equal.
  apply nth_error_ext. intros n. unfold expected_targets.
  unfold size, NUM_MAESTRO_CHANNELS in *.
  assert (Hcomb : List.length (combine servos degrees) = List.length degrees)
    by (rewrite length_combine; lia).
  destruct (Nat.lt_ge_cases n (List.length degrees)) as [Hn|Hn].
  - destruct (nth_error_inside servos n) as [sv Esv]; [unfold size; lia|].
    destruct (nth_error_inside degrees n) as [d Ed]; [unfold size; lia|].
    rewrite (Hwritten n sv d) by (auto; lia).
    rewrite nth_error_app1 by (rewrite length_map; lia).
    rewrite nth_error_map, (nth_error_combine _ _ _ _ _ Esv Ed). reflexivity.
  - rewrite Hrest by (right; unfold size; lia).
    rewrite nth_error_app2 by (rewrite length_map; lia).
    rewrite length_map, Hcomb. unfold fresh_targets, NUM_MAESTRO_CHANNELS.
    destruct (Nat.lt_ge_cases n 8) as [H8|H8].
    + rewrite !nth_error_repeat by (change (Z.to_nat 8) with 8%nat; lia). reflexivity.
    + transitivity (@None (option Z)); [|symmetry];
        apply nth_error_None; rewrite repeat_length;
        change (Z.to_nat 8) with 8%nat; lia.
Qed.

(** Within bounds, the whole run in one equation. *)
Lemma setMultipleTargets_done
    (servos : list SB_Servo) (degrees : list FP.float) (w : World) :
  in_bounds servos degrees = true -> size servos <= CInt.INT_MAX ->
  exists first : SB_Servo,
    nth_error servos 0 = Some first /\
    setMultipleTargets servos degrees w =
      Done (mkWorld (servoCount w) (position w)
              (trace w ++ breaks servos ++
               [SetMultiTarget (size servos) (channelNum first)
                               (expected_targets servos degrees)])).
Proof.
  unfold in_bounds. intros Hb Hmax.
  apply andb_true_iff in Hb. destruct Hb as [Hb H8].
  apply andb_true_iff in Hb. destruct Hb as [H1 Hds].
  apply Z.leb_le in H1, Hds, H8.
  destruct (nth_error_inside servos 0) as [first Efirst]; [cbn; lia|].
  exists first. split; [exact Efirst|].
  unfold setMultipleTargets.
  pose proof (contiguity_scan_breaks servos H1 Hmax (S (List.length servos)) 0 w) as Hscan.
  change (CInt.wrap (Z.of_nat 0)) with 0 in Hscan. cbn [skipn] in Hscan.
  rewrite Hscan by (unfold size in *; cbn; lia).
  rewrite (fill_targets_expected servos degrees Hds H8).
  change 0 with (Z.of_nat 0) at 1. rewrite at_index_of_nat, Efirst.
  rewrite wrap_in_range by (unfold CInt.in_range, CInt.INT_MIN; split; [|exact Hmax];
                            change (- 2 ^ 31) with (-2147483648); lia).
  unfold emit. cbn [servoCount position trace]. rewrite <- app_assoc. reflexivity.
Qed.

(** X17.  Within bounds (and with a vector whose size fits an [int]),
    [setMultipleTargets] is this and nothing else: the lines of [breaks],
    then one [setMultiTarget] with the number of units, the channel of the
    first unit and the array of [expected_targets]: the raw angles, neither
    clamped to a window nor held back by a mask, through [degToUS] of the
    unit of the same index, entries without an angle left unwritten.  The
    static members stay as they were. *)
Theorem setMultipleTargets_exact
    (servos : list SB_Servo) (degrees : list FP.float) (w : World) :
  in_bounds servos degrees = true -> size servos <= CInt.INT_MAX ->
  exists (w' : World) (first : SB_Servo),
    nth_error servos 0 = Some first /\
    setMultipleTargets servos degrees w = Done w' /\
    servoCount w' = servoCount w /\ position w' = position w /\
    since w w' =
      breaks servos ++
      [SetMultiTarget (size servos) (channelNum first) (expected_targets servos degrees)].
Proof.
  intros Hb Hmax.
  destruct (setMultipleTargets_done servos degrees w Hb Hmax) as [first [Ef Hrun]].
  eexists. exists first. split; [exact Ef|]. split; [exact Hrun|].
  cbn [servoCount position]. split; [reflexivity|]. split; [reflexivity|].
  apply since_app. reflexivity.
Qed.

Lemma setMultipleTargets_exact_witness :
  exists (w' : World) (first : SB_Servo),
    nth_error (fst trio) 0 = Some first /\
    setMultipleTargets (fst trio) [FP.of_int 0; FP.of_int 90] (snd trio) = Done w' /\
    servoCount w' = servoCount (snd trio) /\ position w' = position (snd trio) /\
    since (snd trio) w' =
      breaks (fst trio) ++
      [SetMultiTarget (size (fst trio)) (channelNum first)
                      (expected_targets (fst trio) [FP.of_int 0; FP.of_int 90])].
Proof.
  apply (setMultipleTargets_exact (fst trio) [FP.of_int 0; FP.of_int 90] (snd trio)).
  - reflexivity.
  - vm_compute. discriminate.
Defined.

Lemma breaks_contiguous (servos : list SB_Servo) :
  breaks servos = [] <-> contiguous servos = true.
Proof.
  induction servos as [|a [|b rest] IH]; [cbn; tauto | cbn; tauto|].
  cbn [breaks contiguous].
  destruct (CInt.add (channelNum a) 1 =? channelNum b); cbn [negb andb app].
  - exact IH.
  - split; discriminate.
Qed.

(** X18.  A batch within bounds whose units sit on consecutive channels
    causes a single event, the bulk call: nothing is printed. *)
Theorem setMultipleTargets_contiguous
    (servos : list SB_Servo) (degrees : list FP.float) (w : World) :
  in_bounds servos degrees = true -> size servos <= CInt.INT_MAX ->
  contiguous servos = true ->
  exists (w' : World) (first : SB_Servo),
    nth_error servos 0 = Some first /\
    setMultipleTargets servos degrees w = Done w' /\
    since w w' = [SetMultiTarget (size servos) (channelNum first)
                                 (expected_targets servos degrees)].
Proof.
  intros Hb Hmax Hc.
  destruct (setMultipleTargets_done servos degrees w Hb Hmax) as [first [Ef Hrun]].
  apply breaks_contiguous in Hc. rewrite Hc in Hrun. cbn [app] in Hrun.
  eexists. exists first. split; [exact Ef|]. split; [exact Hrun|].
  apply since_app. reflexivity.
Qed.

Lemma setMultipleTargets_contiguous_witness :
  exists (w' : World) (first : SB_Servo),
    nth_error (fst (fleet [2; 3; 4] (quiet 6000))) 0 = Some first /\
    setMultipleTargets (fst (fleet [2; 3; 4] (quiet 6000)))
                       [FP.of_int 0; FP.of_int 90; FP.of_int 180]
                       (snd (fleet [2; 3; 4] (quiet 6000))) = Done w' /\
    since (snd (fleet [2; 3; 4] (quiet 6000))) w' =
      [SetMultiTarget (size (fst (fleet [2; 3; 4] (quiet 6000)))) (channelNum first)
         (expected_targets (fst (fleet [2; 3; 4] (quiet 6000)))
                           [FP.of_int 0; FP.of_int 90; FP.of_int 180])].
Proof.
  apply (setMultipleTargets_contiguous (fst (fleet [2; 3; 4] (quiet 6000)))
           [FP.of_int 0; FP.of_int 90; FP.of_int 180]
           (snd (fleet [2; 3; 4] (quiet 6000)))).
  - reflexivity.
  - vm_compute. discriminate.
  - reflexivity.
Defined.

Lemma at_index_map {A B : Type} (g : A -> B) (l : list A) (i : Z) :
  at_index (map g l) i = option_map g (at_index l i).
Proof.
  unfold at_index. destruct (i <? 0); [reflexivity | apply nth_error_map].
Qed.

Section MaskBlind.

Variable mask : SB_Servo -> Z.

Let remask (s : SB_Servo) : SB_Servo := set_errorCode s (mask s).

Lemma contiguity_scan_remask (servos : list SB_Servo) (fuel : nat) (i : Z) (w : World) :
  contiguity_scan fuel (map remask servos) i w = contiguity_scan fuel servos i w.
Proof.
  revert i w. induction fuel as [|fuel IH]; intros i w; [reflexivity|].
  cbn [contiguity_scan]. unfold size. rewrite length_map, !at_index_map.
  destruct (CInt.to_size_t i <? CInt.to_size_t (Z.of_nat (List.length servos) - 1));
    [|reflexivity].
  destruct (at_index servos (CInt.to_size_t i)) as [a|]; [|reflexivity].
  destruct (at_index servos (CInt.to_size_t (CInt.add i 1))) as [b|]; [|reflexivity].
  cbn [option_map]. unfold remask at 1 2 3. cbn [channelNum set_errorCode].
  unfold printDebug. cbn [servoNumber set_errorCode]. apply IH.
Qed.

Lemma fill_targets_remask (servos : list SB_Servo) (degrees : list FP.float)
    (fuel : nat) (i : Z) (targets : list (option Z)) :
  fill_targets fuel (map remask servos) degrees i targets =
  fill_targets fuel servos degrees i targets.
Proof.
  revert i targets. induction fuel as [|fuel IH]; intros i targets; [reflexivity|].
  cbn [fill_targets]. rewrite at_index_map.
  destruct (CInt.to_size_t i <? size degrees); [|reflexivity].
  destruct (at_index servos (CInt.to_size_t i)) as [sv|]; [|reflexivity].
  cbn [option_map].
  destruct (at_index degrees (CInt.to_size_t i)) as [d|]; [|reflexivity].
  change (degToUS (remask sv) d) with (degToUS sv d).
  destruct (array_set targets i (Some (CInt.to_uint16 (degToUS sv d)))); [apply IH|reflexivity].
Qed.

(** X19.  [setMultipleTargets] is blind to the masks: with the error
    codes of the units replaced by anything at all, it does exactly the
    same, so a unit carrying the channel bit (or any other) is commanded
    like a clean one. *)
Theorem setMultipleTargets_ignores_masks
    (servos : list SB_Servo) (degrees : list FP.float) (w : World) :
  setMultipleTargets (map (fun s => set_errorCode s (mask s)) servos) degrees w =
  setMultipleTargets servos degrees w.
Proof.
  change (fun s => set_errorCode s (mask s)) with remask.
  unfold setMultipleTargets.
  rewrite length_map, contiguity_scan_remask, fill_targets_remask, at_index_map.
  unfold size. rewrite length_map.
  destruct (contiguity_scan _ servos 0 w); try reflexivity.
  destruct (fill_targets _ servos degrees 0 fresh_targets); try reflexivity.
  destruct (at_index servos 0); reflexivity.
Qed.

End MaskBlind.

(** ** Checking again *)

Lemma check_again (test : SB_Servo -> bool) (bit : Z) (msg : string) (m : Machine) :
  (forall s e, test (set_errorCode s e) = test s) ->
  errorCode (fst (check test bit msg (check test bit msg m))) =
  errorCode (fst (check test bit msg m)).
Proof.
  intros Hblind. destruct m as [s w]. unfold check.
  destruct (test s) eqn:Ht; cbn [fst snd].
  - unfold raise at 1. rewrite Hblind, Ht. cbn [fst errorCode raise set_errorCode].
    rewrite <- Z.lor_assoc, Z.lor_diag. reflexivity.
  - rewrite Ht. reflexivity.
Qed.

(** X20.  Validation is idempotent on the mask: running any of the seven
    checks a second time adds no bit the first run did not add (this is what
    the [checkChannel] at the head of every [rotateToDegrees] relies on). *)
Theorem checks_idempotent (m : Machine) :
  Forall (fun chk => errorCode (fst (chk (chk m))) = errorCode (fst (chk m)))
         construction_checks.
Proof.
  unfold construction_checks.
  repeat constructor; apply check_again; intros s e; reflexivity.
Qed.

(** ** The default calibration *)

(** X21.  On every unit the one-argument constructor builds, [degToUS]
    maps 0 to the stored minimum 2000 and 180 to the stored maximum 10000,
    never decreases from one whole angle to the next, stays within the
    stored bounds, and [usToDegrees] brings every whole angle from 0 to 180
    back within one pulse step (180/8000 of a degree). *)
Theorem default_unit_conversions (channel : Z) (w : World) :
  let s := fst (new_SB_Servo1 channel w) in
  degToUS s (FP.of_int 0) = minUS s /\
  degToUS s (FP.of_int 180) = maxUS s /\
  forallb (fun a => (minUS s <=? degToUS s (FP.of_int a))
                    && (degToUS s (FP.of_int a) <=? maxUS s)
                    && (degToUS s (FP.of_int a) <=? degToUS s (FP.of_int (a + 1)))
                    && FP.leb (SFabs (FP.sub (usToDegrees s (degToUS s (FP.of_int a)))
                                             (FP.of_int a)))
                              (FP.div (FP.of_int 180) (FP.of_int 8000)))
          whole_angles = true.
Proof.
  cbv zeta. unfold new_SB_Servo1, new_SB_Servo3.
  destruct (new_SB_Servo_shape DEFAULT_MIN_US DEFAULT_MAX_US
              (FP.of_int DEFAULT_MIN_ANGLE) (FP.of_int DEFAULT_MAX_ANGLE)
              (FP.of_int DEFAULT_MIN_ANGLE) (FP.of_int DEFAULT_MAX_ANGLE)
              channel w) as [Hs _].
  rewrite Hs. generalize (errorCode (fst (new_SB_Servo DEFAULT_MIN_US DEFAULT_MAX_US
              (FP.of_int DEFAULT_MIN_ANGLE) (FP.of_int DEFAULT_MAX_ANGLE)
              (FP.of_int DEFAULT_MIN_ANGLE) (FP.of_int DEFAULT_MAX_ANGLE)
              channel w))).
  intros e. repeat split; vm_compute; reflexivity.
Qed.

(** ** A request that is not a number *)

(** X22.  A NaN request is not clamped: both comparisons of the clamp
    are false on it, so it sets neither rotate bit, prints no warning, and
    is handed to [degToUS] as it is. *)
Theorem rotateToDegrees_nan_unclamped (s : SB_Servo) (w : World) :
  clamp S754_nan (s, w) = (S754_nan, (s, w)) /\
  errorCode (fst (rotateToDegrees S754_nan (s, w))) = errorCode (fst (checkChannel (s, w))) /\
  gateway_calls (since w (snd (rotateToDegrees S754_nan (s, w)))) =
    (if channel_blocked s then [] else [SetTarget (channelNum s) (degToUS s S754_nan)]).
Proof.
  assert (Hc : clamp S754_nan (s, w) = (S754_nan, (s, w))).
  { apply clamp_inside.
    - unfold FP.gtb, SFltb, SFcompare. destruct (maxAngle s); reflexivity.
    - reflexivity. }
  split; [exact Hc|]. split.
  - rewrite rotateToDegrees_errorCode, Hc. reflexivity.
  - rewrite rotateToDegrees_calls, Hc. reflexivity.
Qed.
